(** * EmpathAI frontend: emotion utilities, emotion visualizer and therapy session

    A shallow embedding of the TypeScript sources

    - [frontend/lib/emotionUtils.ts]
    - [frontend/components/emotion/EmotionVisualizer.tsx]
    - [frontend/src/components/emotion/EmotionVisualizer.tsx] (mock visualizer)
    - the [TherapySession] component (with and without session id)
    - the [HomePage] component, the session page and the settings page
    - the API client

    Conventions of the embedding.

    - A JavaScript string is a [string] holding its UTF-8 encoding.
      [trim] removes the white space and the line terminators of
      ECMAScript, those outside ASCII included.  [toLowerCase] and
      [toUpperCase] map the ASCII letters and leave every other byte alone;
      the keys of all tables in the sources are ASCII.
    - A JavaScript number is the rational value ([Q]) of a double;
      [Math.round x] is [floor (x + 1/2)].  NaN and the infinities are not
      represented.  [EmotionUtils], [EmotionVisualizer] and
      [MockVisualizer] multiply and divide these rationals exactly;
      [Binary64] rounds as IEEE 754 does, and [Doubles] has the formatters
      with that arithmetic.
    - A [Record<string, number>] is the list of its entries in the order
      [Object.entries] enumerates them.
    - An object literal used as a lookup table is the list of its own
      properties; a property read that misses the own properties continues
      in [Object.prototype], as it does in JavaScript.
    - React state is a record; a handler is a function from the state it
      closes over (the render snapshot) to the next state.  The network is
      an oracle [server] together with the log of the requests issued.  A
      handler runs to its end with its request settled: what the user does
      while a request is pending is not part of the embedding. *)

From Stdlib Require Import List String Ascii Bool Arith ZArith QArith Qround Qabs Qpower.
From Stdlib Require Import Lia Permutation Sorted DecimalString Lqa.
Import ListNotations.

Local Open Scope string_scope.
Local Open Scope list_scope.

(** ** JavaScript strings *)

Module JsString.

Definition is_upper (c : ascii) : bool :=
  let n := nat_of_ascii c in (65 <=? n)%nat && (n <=? 90)%nat.

Definition is_lower (c : ascii) : bool :=
  let n := nat_of_ascii c in (97 <=? n)%nat && (n <=? 122)%nat.

Definition lower_char (c : ascii) : ascii :=
  if is_upper c then ascii_of_nat (nat_of_ascii c + 32) else c.

Definition upper_char (c : ascii) : ascii :=
  if is_lower c then ascii_of_nat (nat_of_ascii c - 32) else c.

(** [s.toLowerCase()], on ASCII letters *)
Fixpoint toLowerCase (s : string) : string :=
  match s with
  | EmptyString => EmptyString
  | String c s' => String (lower_char c) (toLowerCase s')
  end.

(** [s.toUpperCase()], on ASCII letters *)
Fixpoint toUpperCase (s : string) : string :=
  match s with
  | EmptyString => EmptyString
  | String c s' => String (upper_char c) (toUpperCase s')
  end.

(** [s.charAt(0)]: the empty string when [s] is empty. *)
Definition charAt0 (s : string) : string :=
  match s with
  | EmptyString => EmptyString
  | String c _ => String c EmptyString
  end.

(** [s.slice(1)] *)
Definition slice1 (s : string) : string :=
  match s with
  | EmptyString => EmptyString
  | String _ s' => s'
  end.

(** White space as [trim] sees it: the WhiteSpace and LineTerminator code
    points of ECMAScript, read in the UTF-8 encoding of the string.

    - one byte: TAB, LF, VT, FF, CR (9 to 13) and SPACE (32);
    - two bytes: U+00A0 no-break space (194 160);
    - three bytes: U+1680 (225 154 128), U+2000 to U+200A (226 128 128 to
      226 128 138), U+2028 and U+2029 line and paragraph separator
      (226 128 168, 226 128 169), U+202F (226 128 175), U+205F
      (226 129 159), U+3000 ideographic space (227 128 128) and U+FEFF
      byte order mark (239 187 191). *)
Definition space1 (b1 : nat) : bool :=
  ((9 <=? b1)%nat && (b1 <=? 13)%nat) || (b1 =? 32)%nat.

Definition space2 (b1 b2 : nat) : bool :=
  (b1 =? 194)%nat && (b2 =? 160)%nat.

Definition space3 (b1 b2 b3 : nat) : bool :=
  ((b1 =? 225)%nat && (b2 =? 154)%nat && (b3 =? 128)%nat)
  || ((b1 =? 226)%nat && (b2 =? 128)%nat
      && (((128 <=? b3)%nat && (b3 <=? 138)%nat)
          || (b3 =? 168)%nat || (b3 =? 169)%nat || (b3 =? 175)%nat))
  || ((b1 =? 226)%nat && (b2 =? 129)%nat && (b3 =? 159)%nat)
  || ((b1 =? 227)%nat && (b2 =? 128)%nat && (b3 =? 128)%nat)
  || ((b1 =? 239)%nat && (b2 =? 187)%nat && (b3 =? 191)%nat).

(** When [s] starts with a white space character: what follows it. *)
Definition afterSpace (s : string) : option string :=
  match s with
  | EmptyString => None
  | String c1 s1 =>
      if space1 (nat_of_ascii c1) then Some s1
      else
        match s1 with
        | EmptyString => None
        | String c2 s2 =>
            if space2 (nat_of_ascii c1) (nat_of_ascii c2) then Some s2
            else
              match s2 with
              | EmptyString => None
              | String c3 s3 =>
                  if space3 (nat_of_ascii c1) (nat_of_ascii c2) (nat_of_ascii c3)
                  then Some s3
                  else None
              end
        end
  end.

(** Drop leading white space characters, at most [fuel] of them. *)
Fixpoint dropSpaces (fuel : nat) (s : string) : string :=
  match fuel with
  | O => s
  | S fuel' =>
      match afterSpace s with
      | Some rest => dropSpaces fuel' rest
      | None => s
      end
  end.

(** [s.trimStart()]: a string has no more characters than bytes. *)
Definition trimStart (s : string) : string := dropSpaces (String.length s) s.

(** [s] consists of at most [fuel] characters, all of them white space. *)
Fixpoint onlySpaces (fuel : nat) (s : string) : bool :=
  match s with
  | EmptyString => true
  | String _ _ =>
      match fuel with
      | O => false
      | S fuel' =>
          match afterSpace s with
          | Some rest => onlySpaces fuel' rest
          | None => false
          end
      end
  end.

(** The text is empty or consists only of white space. *)
Definition blank (s : string) : bool := onlySpaces (String.length s) s.

(** [s.trimEnd()]: cut where only white space is left. *)
Fixpoint trimEnd (s : string) : string :=
  match s with
  | EmptyString => EmptyString
  | String c s' => if blank s then EmptyString else String c (trimEnd s')
  end.

(** [s.trim()] *)
Definition trim (s : string) : string := trimEnd (trimStart s).

(** Three white space characters outside ASCII, for the examples. *)
Definition NBSP : string :=
  String (ascii_of_nat 194) (String (ascii_of_nat 160) EmptyString).

Definition IDEOGRAPHIC_SPACE : string :=
  String (ascii_of_nat 227)
    (String (ascii_of_nat 128) (String (ascii_of_nat 128) EmptyString)).

Definition LINE_SEPARATOR : string :=
  String (ascii_of_nat 226)
    (String (ascii_of_nat 128) (String (ascii_of_nat 168) EmptyString)).

(** JavaScript truthiness of a string: [!s] is [true] exactly on [""]. *)
Definition truthy (s : string) : bool :=
  match s with
  | EmptyString => false
  | String _ _ => true
  end.

(** [a < b] on strings (code-unit order). *)
Definition lt (a b : string) : Prop := String.compare a b = Lt.

End JsString.

Import JsString.

(** ** Object literals used as lookup tables *)

Module JsObject.

(** The members every object literal inherits from [Object.prototype]. *)
Definition prototype_members : list string :=
  [ "constructor"; "__defineGetter__"; "__defineSetter__"; "hasOwnProperty";
    "__lookupGetter__"; "__lookupSetter__"; "isPrototypeOf";
    "propertyIsEnumerable"; "toString"; "valueOf"; "__proto__";
    "toLocaleString" ].

Definition inherited (key : string) : bool :=
  existsb (String.eqb key) prototype_members.

(** The value a property read produces: a value of the table, or one of the
    inherited members (a function or an object, hence truthy and of no use
    as a table value). *)
Inductive value (A : Type) : Type :=
| Val (a : A)
| Builtin (name : string).

Arguments Val {A} a.
Arguments Builtin {A} name.

Definition table (A : Type) : Type := list (string * A).

Fixpoint own {A : Type} (t : table A) (key : string) : option A :=
  match t with
  | [] => None
  | (k, v) :: t' => if String.eqb k key then Some v else own t' key
  end.

(** [t[key]]; [None] is [undefined]. *)
Definition get {A : Type} (t : table A) (key : string) : option (value A) :=
  match own t key with
  | Some v => Some (Val v)
  | None => if inherited key then Some (Builtin key) else None
  end.

(** [key in t] *)
Definition has {A : Type} (t : table A) (key : string) : bool :=
  match get t key with
  | Some _ => true
  | None => false
  end.

End JsObject.

(** ** frontend/lib/emotionUtils.ts *)

Module EmotionUtils.

Import JsObject.

Definition emotionColors : table string :=
  [ ("happy", "#10B981"); ("sad", "#6B7280"); ("angry", "#EF4444");
    ("disgust", "#8B5CF6"); ("fear", "#7C3AED"); ("surprise", "#F59E0B");
    ("neutral", "#4F46E5") ].

(** [emotionColors.neutral] *)
Definition neutralColor : string := "#4F46E5".

Record TherapyTechnique : Type := mkTechnique {
  id : string;
  name : string;
  description : string;
  forEmotions : list string;
  steps : list string
}.

Definition deep_breathing : TherapyTechnique :=
  {| id := "deep-breathing";
     name := "Deep Breathing Exercise";
     description := "A simple technique to reduce stress and anxiety by controlling your breath";
     forEmotions := ["angry"; "fear"; "sad"; "disgust"];
     steps := [ "Find a comfortable position and close your eyes";
                "Breathe in slowly through your nose for a count of 4";
                "Hold your breath for a count of 2";
                "Exhale slowly through your mouth for a count of 6";
                "Repeat for 5-10 cycles" ] |}.

Definition gratitude_practice : TherapyTechnique :=
  {| id := "gratitude-practice";
     name := "Gratitude Practice";
     description := "Focusing on things you are grateful for to improve mood and perspective";
     forEmotions := ["sad"; "angry"; "disgust"];
     steps := [ "Take a moment to reflect on your day";
                "Identify three things you are grateful for, no matter how small";
                "For each item, consider why you are grateful for it";
                "Notice how acknowledging these positives affects your mood" ] |}.

Definition grounding_54321 : TherapyTechnique :=
  {| id := "grounding-54321";
     name := "5-4-3-2-1 Grounding Technique";
     description := "A sensory awareness exercise to manage anxiety and bring focus to the present";
     forEmotions := ["fear"; "angry"; "sad"];
     steps := [ "Acknowledge 5 things you can see";
                "Acknowledge 4 things you can touch/feel";
                "Acknowledge 3 things you can hear";
                "Acknowledge 2 things you can smell";
                "Acknowledge 1 thing you can taste" ] |}.

Definition positive_reframing : TherapyTechnique :=
  {| id := "positive-reframing";
     name := "Positive Reframing";
     description := "Changing perspective by finding the positive aspects in challenging situations";
     forEmotions := ["sad"; "fear"; "angry"; "disgust"];
     steps := [ "Identify a negative thought or situation";
                "Challenge the thought: Is it entirely true? Are you seeing the whole picture?";
                "Find a more balanced or positive interpretation";
                "Focus on what you have learned or how you have grown from the experience" ] |}.

Definition therapyTechniques : list TherapyTechnique :=
  [ deep_breathing; gratitude_practice; grounding_54321; positive_reframing ].

(** [array.includes(x)] on an array of strings *)
Definition includes (l : list string) (x : string) : bool :=
  existsb (String.eqb x) l.

(** Gets therapy techniques appropriate for a given emotion. *)
Definition getTechniquesForEmotion (emotionName : string) : list TherapyTechnique :=
  let emotion := toLowerCase emotionName in
  filter (fun technique => includes (forEmotions technique) emotion) therapyTechniques.

(** [Math.round] *)
Definition Math_round (x : Q) : Z := Qfloor (x + (1 # 2)).

(** A [Record<string, number>], as [Object.entries] lists it. *)
Definition Emotions : Type := list (string * Q).

Record EmotionData : Type := mkEmotionData {
  emotion : string;
  percentage : Z;
  color : value string
}.

(** Formats emotion data from API response for visualization. *)
Definition formatEmotionData (emotions : Emotions) : list EmotionData :=
  map (fun '(emotion, v) =>
         let normalizedEmotion := toLowerCase emotion in
         let color :=
           if has emotionColors normalizedEmotion
           then match get emotionColors normalizedEmotion with
                | Some c => c
                | None => Val neutralColor
                end
           else Val neutralColor in
         {| emotion := emotion;
            percentage := Math_round (v * 100);
            color := color |})
      emotions.

(** [x > y] on numbers *)
Definition gt (x y : Q) : bool := negb (Qle_bool x y).

(** One step of the [forEach] in [getDominantEmotion]; the accumulator is
    the pair of the local variables [maxScore] and [dominant]. *)
Definition dominant_step (acc : Q * string) (entry : string * Q) : Q * string :=
  let '(maxScore, dominant) := acc in
  let '(emotion, score) := entry in
  if gt score maxScore then (score, emotion) else (maxScore, dominant).

(** Gets the dominant emotion from a set of emotions. *)
Definition getDominantEmotion (emotions : Emotions) : string :=
  snd (fold_left dominant_step emotions (0, "neutral")).

End EmotionUtils.

(** ** frontend/components/emotion/EmotionVisualizer.tsx *)

Module EmotionVisualizer.

Import JsObject.
Export EmotionUtils.

(** Map of emotions to their corresponding colors. *)
Definition EMOTION_COLORS : table string :=
  [ ("happy", "#10B981"); ("joy", "#10B981");
    ("sad", "#6B7280"); ("sadness", "#6B7280");
    ("angry", "#EF4444"); ("anger", "#EF4444");
    ("disgust", "#8B5CF6"); ("fear", "#7C3AED");
    ("surprised", "#F59E0B"); ("surprise", "#F59E0B");
    ("neutral", "#4F46E5"); ("calm", "#4F46E5") ].

Definition defaultEmotions : list EmotionData :=
  [ {| emotion := "Neutral"; percentage := 65; color := Val "#4F46E5" |};
    {| emotion := "Happy"; percentage := 15; color := Val "#10B981" |};
    {| emotion := "Sad"; percentage := 10; color := Val "#6B7280" |};
    {| emotion := "Angry"; percentage := 5; color := Val "#EF4444" |};
    {| emotion := "Surprised"; percentage := 5; color := Val "#F59E0B" |} ].

(** [emotion.charAt(0).toUpperCase() + emotion.slice(1)], for a label that
    starts with an ASCII character *)
Definition capitalize (emotion : string) : string :=
  toUpperCase (charAt0 emotion) ++ slice1 emotion.

(** [EMOTION_COLORS[emotion.toLowerCase()] || '#4F46E5']: every value the
    read can produce is truthy, so the default is taken on [undefined] only. *)
Definition displayColor (emotion : string) : value string :=
  match get EMOTION_COLORS (toLowerCase emotion) with
  | Some c => c
  | None => Val "#4F46E5"
  end.

Definition formatEntry (entry : string * Q) : EmotionData :=
  let '(emotion, v) := entry in
  {| emotion := capitalize emotion;
     percentage := Math_round (v * 100);
     color := displayColor emotion |}.

(** [.sort((a, b) => b.percentage - a.percentage)]: the sort is stable, so
    its result is that of inserting each element, from the last to the
    first, in front of the first element that is not strictly larger. *)
Fixpoint insertDesc (a : EmotionData) (l : list EmotionData) : list EmotionData :=
  match l with
  | [] => [a]
  | b :: l' =>
      if (percentage a <? percentage b)%Z then b :: insertDesc a l'
      else a :: b :: l'
  end.

Definition sortDesc (l : list EmotionData) : list EmotionData :=
  fold_right insertDesc [] l.

(** Format the raw emotions for display.  [None] is an absent ([undefined])
    [rawData].  Nothing in the [try] block can throw, so the [catch] branch
    contributes no case. *)
Definition formatEmotions (rawData : option Emotions) : list EmotionData :=
  match rawData with
  | None => defaultEmotions
  | Some [] => defaultEmotions
  | Some entries =>
      let formatted := firstn 5 (sortDesc (map formatEntry entries)) in
      match formatted with
      | [] => defaultEmotions
      | _ => formatted
      end
  end.

(** [useMockData ? defaultEmotions : formatEmotions(rawEmotions)] *)
Definition displayEmotions (useMockData : bool) (rawEmotions : option Emotions)
  : list EmotionData :=
  if useMockData then defaultEmotions else formatEmotions rawEmotions.

(** [displayEmotions[0]?.emotion || 'Neutral'] *)
Definition dominantEmotion (shown : list EmotionData) : string :=
  match shown with
  | [] => "Neutral"
  | d :: _ => if truthy (emotion d) then emotion d else "Neutral"
  end.

Definition neutralTips : list string :=
  [ "Practice regular mindfulness meditation";
    "Set goals for personal growth";
    "Engage in activities that bring you peace" ].

Definition emotionTips : table (list string) :=
  [ ("Neutral", neutralTips);
    ("Happy", [ "Journal about what brought you joy today";
                "Share your positive feelings with others";
                "Build on this energy to tackle challenges" ]);
    ("Sad", [ "Allow yourself to feel without judgment";
              "Connect with a supportive friend or family member";
              "Try gentle physical activity like walking" ]);
    ("Angry", [ "Take deep breaths to calm your nervous system";
                "Try counting to 10 before responding";
                "Channel the energy into productive activities" ]);
    ("Fear", [ "Ground yourself by naming 5 things you can see";
               "Challenge catastrophic thinking patterns";
               "Practice progressive muscle relaxation" ]);
    ("Surprised", [ "Take a moment to process the unexpected";
                    "Consider different perspectives of the situation";
                    "Adapt your plans as needed" ]);
    ("Disgust", [ "Identify the specific trigger for your feeling";
                  "Practice acceptance of uncomfortable emotions";
                  "Reframe your thinking about the situation" ]) ].

(** Get therapy tips based on the dominant emotion:
    [emotionTips[emotion] || emotionTips['Neutral']].  An array, even an
    empty one, is truthy. *)
Definition getTherapyTips (emotion : string) : value (list string) :=
  match get emotionTips emotion with
  | Some tips => tips
  | None => Val neutralTips
  end.

(** The list under "Suggested Techniques",
    [therapyTips.map((tip, index) => ...)]: the tips with their numbers
    [index + 1].  A value that is not an array has no [map], and calling it
    throws a [TypeError] ([None]), which nothing in the component catches. *)
Definition renderTips (therapyTips : value (list string))
  : option (list (nat * string)) :=
  match therapyTips with
  | Val tips => Some (combine (seq 1 (List.length tips)) tips)
  | Builtin _ => None
  end.

End EmotionVisualizer.

(** ** frontend/src/components/emotion/EmotionVisualizer.tsx (mock data) *)

Module MockVisualizer.

Import JsObject.
Import EmotionUtils.

(** The five mock entries; the arguments are the five random draws
    [Math.floor(Math.random() * 30) + 45] and so on. *)
Definition mockEmotion (n h s a u : Z) : list EmotionData :=
  [ {| emotion := "Neutral"; percentage := n; color := Val "#4F46E5" |};
    {| emotion := "Happy"; percentage := h; color := Val "#10B981" |};
    {| emotion := "Sad"; percentage := s; color := Val "#6B7280" |};
    {| emotion := "Angry"; percentage := a; color := Val "#EF4444" |};
    {| emotion := "Surprised"; percentage := u; color := Val "#F59E0B" |} ].

(** The ranges of the five draws. *)
Definition draw_ok (n h s a u : Z) : Prop :=
  (45 <= n < 75 /\ 5 <= h < 25 /\ 5 <= s < 20 /\ 0 <= a < 10 /\ 0 <= u < 10)%Z.

(** [mockEmotion.reduce((acc, curr) => acc + curr.percentage, 0)] *)
Definition total (l : list EmotionData) : Z :=
  fold_left (fun acc curr => (acc + percentage curr)%Z) l 0%Z.

(** Normalize to ensure total is 100%. *)
Definition normalizedEmotions (l : list EmotionData) : list EmotionData :=
  let t := total l in
  map (fun e =>
         {| emotion := emotion e;
            percentage := Math_round ((inject_Z (percentage e) / inject_Z t) * 100);
            color := color e |})
      l.

End MockVisualizer.

(** ** The analysis API as the components see it *)

Module Api.

Import EmotionUtils.

(** A recorded audio blob (its bytes). *)
Definition Blob : Type := string.

(** The requests the components issue with [axios.post]. *)
Inductive Request : Type :=
| AnalyzeText (text : string) (session_id : option string)
    (* POST /analyze/text *)
| AnalyzeAudio (audio_file : Blob) (text : option string) (session_id : option string)
    (* POST /analyze/audio *)
| AnalyzeTextEmotions (text : string).
    (* POST /analyze/text/emotions *)

(** [response.data]; [detected_emotions] is [None] when the field is
    missing or otherwise falsy. *)
Record Reply : Type := mkReply {
  response_text : string;
  detected_emotions : option Emotions
}.

(** The canonical default distribution. *)
Definition defaultDistribution : Emotions :=
  [ ("neutral", 9 # 10); ("calm", 1 # 10) ].

End Api.

(** ** Handlers: state, the request log and exceptions *)

Module Effects.

Import Api.

Section Monad.

(** What an awaited request produces: [None] when [axios.post] rejects
    (network error, error status), otherwise [response.data], an object of
    the response type. *)
Variable server : Request -> option Reply.

(** The component state. *)
Variable S : Type.

(** A handler body runs on the component state and the log of the requests
    issued so far; [None] as result is a thrown exception. *)
Definition M (A : Type) : Type :=
  S * list Request -> option A * (S * list Request).

Definition ret {A : Type} (a : A) : M A := fun w => (Some a, w).

Definition bind {A B : Type} (m : M A) (k : A -> M B) : M B :=
  fun w =>
    match m w with
    | (Some a, w') => k a w'
    | (None, w') => (None, w')
    end.

(** [try { body } catch { handler }] *)
Definition try_catch {A : Type} (body handler : M A) : M A :=
  fun w =>
    match body w with
    | (Some a, w') => (Some a, w')
    | (None, w') => handler w'
    end.

(** The values the handler closes over. *)
Definition snapshot : M S := fun w => (Some (fst w), w).

(** A state setter, [setX(prev => f prev)]. *)
Definition update (f : S -> S) : M unit := fun w => (Some tt, (f (fst w), snd w)).

(** [await axios.post(...)] *)
Definition post (req : Request) : M Reply :=
  fun w => (server req, (fst w, snd w ++ [req])).

(** Running a handler: the state and the log it leaves. *)
Definition run {A : Type} (m : M A) (st : S) (log : list Request) : S * list Request :=
  snd (m (st, log)).

End Monad.

Arguments ret {S A} a.
Arguments bind {S A B} m k.
Arguments try_catch {S A} body handler.
Arguments snapshot {S}.
Arguments update {S} f.
Arguments post server {S} req.
Arguments run {S A} m st log.

End Effects.

Declare Scope handler_scope.
Delimit Scope handler_scope with handler.
Notation "x <- m ;; k" := (Effects.bind m (fun x => k))
  (at level 61, m at next level, right associativity) : handler_scope.
Notation "m ;; k" := (Effects.bind m (fun _ => k))
  (at level 61, right associativity) : handler_scope.

(** ** The TherapySession component *)

Module TherapySession.

Import EmotionUtils Api Effects.

Inductive Sender : Type := user | ai.

Record Message : Type := mkMessage {
  id : string;
  text : string;
  sender : Sender;
  emotions : option Emotions
}.

(** The React state of the component.  [pendingAnalysis] is the argument the
    debounced [analyzeEmotions] is waiting to be called with, if any.  The
    recorder and the LLM configuration are written by [toggleRecording] and
    [fetchLLMConfig] only and are left out. *)
Record State : Type := mkState {
  messages : list Message;
  inputText : string;
  audioBlob : option Blob;
  loading : bool;
  currentEmotions : Emotions;
  isAnalyzingEmotions : bool;
  pendingAnalysis : option string
}.

Definition greeting : Message :=
  {| id := "1";
     text := "Hello, I'm your empathetic AI assistant. How are you feeling today?";
     sender := ai;
     emotions := None |}.

(** The state the component mounts with. *)
Definition initialState : State :=
  {| messages := [greeting];
     inputText := "";
     audioBlob := None;
     loading := false;
     currentEmotions := defaultDistribution;
     isAnalyzingEmotions := false;
     pendingAnalysis := None |}.

Definition setMessages (f : list Message -> list Message) : M State unit :=
  update (fun st =>
    {| messages := f (messages st); inputText := inputText st;
       audioBlob := audioBlob st; loading := loading st;
       currentEmotions := currentEmotions st;
       isAnalyzingEmotions := isAnalyzingEmotions st;
       pendingAnalysis := pendingAnalysis st |}).

Definition setInputText (v : string) : M State unit :=
  update (fun st =>
    {| messages := messages st; inputText := v;
       audioBlob := audioBlob st; loading := loading st;
       currentEmotions := currentEmotions st;
       isAnalyzingEmotions := isAnalyzingEmotions st;
       pendingAnalysis := pendingAnalysis st |}).

Definition setAudioBlob (v : option Blob) : M State unit :=
  update (fun st =>
    {| messages := messages st; inputText := inputText st;
       audioBlob := v; loading := loading st;
       currentEmotions := currentEmotions st;
       isAnalyzingEmotions := isAnalyzingEmotions st;
       pendingAnalysis := pendingAnalysis st |}).

Definition setLoading (v : bool) : M State unit :=
  update (fun st =>
    {| messages := messages st; inputText := inputText st;
       audioBlob := audioBlob st; loading := v;
       currentEmotions := currentEmotions st;
       isAnalyzingEmotions := isAnalyzingEmotions st;
       pendingAnalysis := pendingAnalysis st |}).

Definition setCurrentEmotions (v : Emotions) : M State unit :=
  update (fun st =>
    {| messages := messages st; inputText := inputText st;
       audioBlob := audioBlob st; loading := loading st;
       currentEmotions := v;
       isAnalyzingEmotions := isAnalyzingEmotions st;
       pendingAnalysis := pendingAnalysis st |}).

Definition setIsAnalyzingEmotions (v : bool) : M State unit :=
  update (fun st =>
    {| messages := messages st; inputText := inputText st;
       audioBlob := audioBlob st; loading := loading st;
       currentEmotions := currentEmotions st;
       isAnalyzingEmotions := v;
       pendingAnalysis := pendingAnalysis st |}).

Definition setPendingAnalysis (v : option string) : M State unit :=
  update (fun st =>
    {| messages := messages st; inputText := inputText st;
       audioBlob := audioBlob st; loading := loading st;
       currentEmotions := currentEmotions st;
       isAnalyzingEmotions := isAnalyzingEmotions st;
       pendingAnalysis := v |}).

(** [Date.now().toString()] and [(Date.now() + 1).toString()] *)
Definition toString (n : Z) : string := NilZero.string_of_int (Z.to_int n).

(** A value attached to a request only when it is truthy,
    [if (v) payload.field = v]. *)
Definition whenTruthy (v : string) : option string :=
  if truthy v then Some v else None.

(** Truthiness of a value that is an object or [null]. *)
Definition present {A : Type} (v : option A) : bool :=
  match v with
  | Some _ => true
  | None => false
  end.

Definition apology : string :=
  "I'm sorry, I couldn't process your message. Please try again.".

Local Open Scope handler_scope.

Section Handlers.

Variable server : Request -> option Reply.

(** The [sessionId] prop; [None] when the component is used without one.
    The earlier version of the component, which has no such prop, issues the
    requests of this one at [None]. *)
Variable sessionId : option string.

(** The body of the debounced function for real-time emotion analysis. *)
Definition analyzeEmotions (text : string) : M State unit :=
  if negb (truthy (trim text)) then
    let defaultEmotions := defaultDistribution in
    setCurrentEmotions defaultEmotions ;;
    setIsAnalyzingEmotions false
  else
    try_catch
      (response <- post server (AnalyzeTextEmotions (trim text)) ;;
       match detected_emotions response with
       | Some detectedEmotions =>
           let newEmotions :=
             match detectedEmotions with
             | [] => [("neutral", 1)]
             | _ => detectedEmotions
             end in
           setCurrentEmotions newEmotions
       | None => setCurrentEmotions defaultDistribution
       end)
      (setCurrentEmotions defaultDistribution) ;;
    setIsAnalyzingEmotions false.

(** Handle text input change for real-time emotion analysis.  Calling the
    debounced function stores its argument until the timer fires. *)
Definition handleTextChange (text : string) : M State unit :=
  setInputText text ;;
  if truthy (trim text) then
    setIsAnalyzingEmotions true ;;
    setPendingAnalysis (Some text)
  else
    setCurrentEmotions defaultDistribution.

(** The debounce timer fires. *)
Definition debounceFires : M State unit :=
  st <- snapshot ;;
  match pendingAnalysis st with
  | Some text => setPendingAnalysis None ;; analyzeEmotions text
  | None => ret tt
  end.

(** Send user message and get AI response.  [now1] and [now2] are the two
    readings of [Date.now()]. *)
Definition sendMessage (now1 now2 : Z) : M State unit :=
  st <- snapshot ;;
  let inputText := inputText st in
  let audioBlob := audioBlob st in
  if (negb (truthy (trim inputText)) && negb (present audioBlob)) || loading st
  then ret tt
  else
    let newMessage :=
      {| id := toString now1; text := trim inputText; sender := user;
         emotions := None |} in
    setMessages (fun prev => prev ++ [newMessage]) ;;
    setInputText "" ;;
    setLoading true ;;
    try_catch
      (response <-
         match audioBlob with
         | Some blob =>
             r <- post server
                    (AnalyzeAudio blob (whenTruthy (trim inputText))
                       (match sessionId with
                        | Some s => whenTruthy s
                        | None => None
                        end)) ;;
             setAudioBlob None ;;
             ret r
         | None =>
             post server
               (AnalyzeText (trim inputText)
                  (match sessionId with
                   | Some s => whenTruthy s
                   | None => None
                   end))
         end ;;
       let aiMessage :=
         {| id := toString (now2 + 1); text := response_text response;
            sender := ai; emotions := detected_emotions response |} in
       setMessages (fun prev => prev ++ [aiMessage]))
      (let errorMessage :=
         {| id := toString (now2 + 1); text := apology; sender := ai;
            emotions := None |} in
       setMessages (fun prev => prev ++ [errorMessage])) ;;
    setLoading false.

(** The [disabled] attribute of the send button. *)
Definition disabled (st : State) : bool :=
  loading st || (negb (truthy (trim (inputText st))) && negb (present (audioBlob st))).

(** What can happen to the mounted component: the text area changes, the
    debounce timer fires, the recorder stops with a blob, the send button is
    clicked (or Enter is pressed). *)
Inductive Event : Type :=
| TextChanged (text : string)
| TimerFired
| RecorderStopped (blob : Blob)
| SendClicked (now1 now2 : Z).

Definition handle (ev : Event) : M State unit :=
  match ev with
  | TextChanged text => handleTextChange text
  | TimerFired => debounceFires
  | RecorderStopped blob => setAudioBlob (Some blob)
  | SendClicked now1 now2 => sendMessage now1 now2
  end.

(** The state and the request log after a sequence of events. *)
Fixpoint handleAll (evs : list Event) (w : State * list Request)
  : State * list Request :=
  match evs with
  | [] => w
  | ev :: evs' => handleAll evs' (run (handle ev) (fst w) (snd w))
  end.

End Handlers.

End TherapySession.

(** ** The HomePage component *)

Module HomePage.

Import EmotionUtils Api Effects.

(** [emotions] is what the visualizer receives; it is [None] once the
    analysis answered without a [detected_emotions] field. *)
Record State : Type := mkState {
  demoText : string;
  emotions : option Emotions;
  isAnalyzing : bool;
  pendingAnalysis : option string
}.

Definition initialState : State :=
  {| demoText := ""; emotions := Some defaultDistribution;
     isAnalyzing := false; pendingAnalysis := None |}.

Definition setDemoText (v : string) : M State unit :=
  update (fun st =>
    {| demoText := v; emotions := emotions st; isAnalyzing := isAnalyzing st;
       pendingAnalysis := pendingAnalysis st |}).

Definition setEmotions (v : option Emotions) : M State unit :=
  update (fun st =>
    {| demoText := demoText st; emotions := v; isAnalyzing := isAnalyzing st;
       pendingAnalysis := pendingAnalysis st |}).

Definition setIsAnalyzing (v : bool) : M State unit :=
  update (fun st =>
    {| demoText := demoText st; emotions := emotions st; isAnalyzing := v;
       pendingAnalysis := pendingAnalysis st |}).

Definition setPendingAnalysis (v : option string) : M State unit :=
  update (fun st =>
    {| demoText := demoText st; emotions := emotions st;
       isAnalyzing := isAnalyzing st; pendingAnalysis := v |}).

Local Open Scope handler_scope.

Section Handlers.

Variable server : Request -> option Reply.

(** The body of the debounced function for real-time emotion analysis. *)
Definition analyzeEmotions (text : string) : M State unit :=
  if negb (truthy (trim text)) then
    setEmotions (Some defaultDistribution) ;;
    setIsAnalyzing false
  else
    try_catch
      (response <- post server (AnalyzeTextEmotions (trim text)) ;;
       setEmotions (detected_emotions response))
      (setEmotions (Some defaultDistribution)) ;;
    setIsAnalyzing false.

(** Handle text input change for real-time emotion analysis. *)
Definition handleDemoTextChange (text : string) : M State unit :=
  setDemoText text ;;
  if truthy (trim text) then
    setIsAnalyzing true ;;
    setPendingAnalysis (Some text)
  else
    setEmotions (Some defaultDistribution).

(** The debounce timer fires. *)
Definition debounceFires : M State unit :=
  st <- snapshot ;;
  match pendingAnalysis st with
  | Some text => setPendingAnalysis None ;; analyzeEmotions text
  | None => ret tt
  end.

End Handlers.

End HomePage.

(** ** Icons of the visualizers *)

Module EmotionIcons.

(** [getEmotionIcon] of frontend/components/emotion/EmotionVisualizer.tsx:
    a [switch] on the lower-cased label. *)
Definition getEmotionIcon (emotion : string) : string :=
  let e := toLowerCase emotion in
  if String.eqb e "happy" || String.eqb e "joy" then "😊"
  else if String.eqb e "sad" || String.eqb e "sadness" then "😢"
  else if String.eqb e "angry" || String.eqb e "anger" then "😠"
  else if String.eqb e "surprised" || String.eqb e "surprise" then "😲"
  else if String.eqb e "fear" then "😨"
  else if String.eqb e "disgust" then "🤢"
  else "😐".

(** [getEmotionIcon] of the mock visualizer, which knows fewer labels. *)
Definition getMockEmotionIcon (emotion : string) : string :=
  let e := toLowerCase emotion in
  if String.eqb e "happy" then "😊"
  else if String.eqb e "sad" then "😢"
  else if String.eqb e "angry" then "😠"
  else if String.eqb e "surprised" then "😲"
  else "😐".

End EmotionIcons.

(** ** The dominant entry of the mock visualizer *)

Module MockDominant.

Import EmotionUtils.

(** [normalizedEmotions.reduce((prev, current) =>
      (prev.percentage > current.percentage) ? prev : current)];
    [reduce] without an initial value starts from the first element and
    throws on an empty array ([None]). *)
Definition dominant (l : list EmotionData) : option EmotionData :=
  match l with
  | [] => None
  | first :: rest =>
      Some (fold_left
              (fun prev current =>
                 if (percentage current <? percentage prev)%Z then prev else current)
              rest first)
  end.

End MockDominant.

(** ** The emotion badges under a message of the therapy session *)

Module MessageBadges.

Import EmotionUtils.

(** [.sort((a, b) => b[1] - a[1])] on the entries of a score mapping; the
    sort is stable. *)
Fixpoint insertByScore (a : string * Q) (l : Emotions) : Emotions :=
  match l with
  | [] => [a]
  | b :: l' => if gt (snd b) (snd a) then b :: insertByScore a l' else a :: b :: l'
  end.

Definition sortByScore (l : Emotions) : Emotions :=
  fold_right insertByScore [] l.

(** The badges shown when [message.emotions] is set: the three largest
    scores, each as [emotion: round(score * 100)%]. *)
Definition badges (emotions : Emotions) : list (string * Z) :=
  map (fun '(emotion, score) => (emotion, Math_round (score * 100)))
      (firstn 3 (sortByScore emotions)).

End MessageBadges.

(** ** The session page *)

Module SessionPage.

(** [[0-9a-f]] under the [i] flag *)
Definition isHex (c : ascii) : bool :=
  let n := nat_of_ascii c in
  ((48 <=? n)%nat && (n <=? 57)%nat)
  || ((97 <=? n)%nat && (n <=? 102)%nat)
  || ((65 <=? n)%nat && (n <=? 70)%nat).

(** [[0-9a-f]{n}] at the head of [s]: what follows the match. *)
Fixpoint hexRun (n : nat) (s : string) : option string :=
  match n with
  | O => Some s
  | S n' =>
      match s with
      | String c s' => if isHex c then hexRun n' s' else None
      | EmptyString => None
      end
  end.

(** [-] at the head of [s] *)
Definition dash (s : string) : option string :=
  match s with
  | String "-"%char s' => Some s'
  | _ => None
  end.

Definition andThen (r : option string) (p : string -> option string) : option string :=
  match r with
  | Some s => p s
  | None => None
  end.

(** [uuidRegex.test(sessionId)] for
    [/^[0-9a-f]{8}-[0-9a-f]{4}-[0-9a-f]{4}-[0-9a-f]{4}-[0-9a-f]{12}$/i] *)
Definition uuidRegex_test (sessionId : string) : bool :=
  match
    andThen (andThen (andThen (andThen (andThen (andThen (andThen (andThen
      (hexRun 8 sessionId) dash) (hexRun 4)) dash) (hexRun 4)) dash) (hexRun 4)) dash)
      (hexRun 12)
  with
  | Some EmptyString => true
  | _ => false
  end.

(** The effect that validates the session id: [true] when it calls
    [router.push('/')]. *)
Definition redirectsHome (sessionId : string) : bool :=
  negb (uuidRegex_test sessionId).

End SessionPage.

(** ** The settings page *)

Module SettingsPage.

Import Api.

Record LLMConfig : Type := mkLLMConfig {
  current_provider : option string;
  current_model : option string;
  available_providers : list (string * string);
  is_using_llm : bool
}.

Record State : Type := mkState {
  config : option LLMConfig;
  isLoading : bool;
  error : option string;
  testMessage : string;
  testResponse : option Reply;
  isTesting : bool
}.

(** The state the page mounts with. *)
Definition initialState : State :=
  {| config := None; isLoading := true; error := None; testMessage := "";
     testResponse := None; isTesting := false |}.

(** What one [fetch] and the [response.json()] after it come to: the fetch
    rejects with an error message; or it answers with [response.ok],
    [response.statusText] and a body that parses to a value or makes
    [json()] reject with a message.  The handlers below read bodies of type
    [option]: [None] is the JSON value [null]. *)
Inductive Fetched (A : Type) : Type :=
| Rejected (message : string)
| Answered (ok : bool) (statusText : string) (body : A + string).

Arguments Rejected {A} message.
Arguments Answered {A} ok statusText body.

(** The [try] block shared by the two handlers: the parsed data, or the
    message of the error that reaches the [catch]. *)
Definition settle {A : Type} (failure : string) (f : Fetched A) : A + string :=
  match f with
  | Rejected message => inr message
  | Answered false statusText _ => inr (failure ++ statusText)%string
  | Answered true _ (inl data) => inl data
  | Answered true _ (inr message) => inr message
  end.

Definition fetchLLMConfig (f : Fetched (option LLMConfig)) (st : State) : State :=
  match settle "Error fetching LLM config: " f with
  | inl data =>
      {| config := data; isLoading := false; error := None;
         testMessage := testMessage st; testResponse := testResponse st;
         isTesting := isTesting st |}
  | inr message =>
      {| config := config st; isLoading := false;
         error := Some ("Failed to load LLM configuration: " ++ message)%string;
         testMessage := testMessage st; testResponse := testResponse st;
         isTesting := isTesting st |}
  end.

(** [handleTestLLM]: the state it leaves and the bodies it posted to
    /analyze/text. *)
Definition handleTestLLM (f : Fetched (option Reply)) (st : State)
  : State * list string :=
  if negb (truthy (trim (testMessage st))) then (st, [])
  else
    match settle "Error testing LLM: " f with
    | inl data =>
        ({| config := config st; isLoading := isLoading st; error := None;
            testMessage := testMessage st; testResponse := data;
            isTesting := false |},
         [testMessage st])
    | inr message =>
        ({| config := config st; isLoading := isLoading st;
            error := Some ("Failed to test LLM: " ++ message)%string;
            testMessage := testMessage st; testResponse := None;
            isTesting := false |},
         [testMessage st])
    end.

(** Which of the three branches the page renders. *)
Inductive View : Type :=
| LoadingCard
| ErrorCard (message : string)
| SettingsCards.

Definition view (st : State) : View :=
  if isLoading st then LoadingCard
  else match error st with
       | Some message => if truthy message then ErrorCard message else SettingsCards
       | None => SettingsCards
       end.

(** The [disabled] attribute of the test button. *)
Definition testDisabled (st : State) : bool :=
  isTesting st || negb (truthy (trim (testMessage st))).

End SettingsPage.

(** ** The API client (lib/api.ts) and the forms on the wire *)

Module ApiClient.

Import Api.

(** A form field: a string, or a file with its name and type. *)
Inductive Part : Type :=
| Text (value : string)
| File (content : Blob) (filename : string) (type : string).

(** A [FormData]: the fields in the order they were appended. *)
Definition FormData : Type := list (string * Part).

(** [if (v) formData.append(key, v)] for an optional string *)
Definition appendIf (key : string) (v : option string) (form : FormData) : FormData :=
  match v with
  | Some s => if truthy s then form ++ [(key, Text s)] else form
  | None => form
  end.

(** [if (blob) formData.append(key, new File([blob], filename, {type}))] *)
Definition appendFileIf (key : string) (v : option Blob) (filename type : string)
  (form : FormData) : FormData :=
  match v with
  | Some blob => form ++ [(key, File blob filename type)]
  | None => form
  end.

(** The form [analyzeAudio] posts to /analyze/audio. *)
Definition analyzeAudio (audioBlob : Blob) (text userId sessionId : option string)
  : FormData :=
  appendIf "session_id" sessionId
    (appendIf "user_id" userId
       (appendIf "text" text
          [("audio", File audioBlob "audio-recording.wav" "audio/wav")])).

(** The form [analyzeImage] posts to /analyze/image; [image] is the blob the
    data URL was fetched into. *)
Definition analyzeImage (image : Blob) (text userId sessionId : option string)
  : FormData :=
  appendIf "session_id" sessionId
    (appendIf "user_id" userId
       (appendIf "text" text
          [("image", File image "webcam-image.jpg" "image/jpeg")])).

(** The form [analyzeMultimodal] posts to /analyze/multimodal. *)
Definition analyzeMultimodal (text : string) (image audioBlob : option Blob)
  (userId sessionId : option string) : FormData :=
  appendIf "session_id" sessionId
    (appendIf "user_id" userId
       (appendFileIf "audio" audioBlob "audio-recording.wav" "audio/wav"
          (appendFileIf "image" image "webcam-image.jpg" "image/jpeg"
             [("text", Text text)]))).

(** The form [sendMessage] of the therapy session builds for a recording:
    the fields of an [AnalyzeAudio] request as they go on the wire. *)
Definition sessionAudioForm (audio_file : Blob) (text session_id : option string)
  : FormData :=
  appendIf "session_id" session_id
    (appendIf "text" text
       [("audio_file", File audio_file "recording.wav" "audio/wav")]).

(** The value of the first field named [key], as the server reads it. *)
Definition field (form : FormData) (key : string) : option Part :=
  JsObject.own form key.

End ApiClient.

(** ** JavaScript numbers as doubles *)

Module Binary64.

(** [2 ^ e] *)
Definition pow2 (e : Z) : Q := 2 ^ e.

(** For [0 < a]: the exponent [k] with [2 ^ k <= a < 2 ^ (k + 1)].  The
    difference of the bit lengths of numerator and denominator is [k] or
    [k + 1]. *)
Definition floor_log2 (a : Q) : Z :=
  let k := (Z.log2 (Qnum a) - Z.log2 (Z.pos (Qden a)))%Z in
  if Qle_bool (pow2 k) a then k else (k - 1)%Z.

(** For [0 <= q]: the nearest integer, a tie going to the even one. *)
Definition nearest_even (q : Q) : Z :=
  let f := Qfloor q in
  match Qcompare (q - inject_Z f) (1 # 2) with
  | Lt => f
  | Gt => (f + 1)%Z
  | Eq => if Z.even f then f else (f + 1)%Z
  end.

(** The double nearest to [x], as IEEE 754 binary64 rounds (to nearest,
    ties to even): 53 significant bits, the last of weight [2 ^ -1074] at
    least.  A number written in decimal denotes this double.  A result
    beyond the largest double, which JavaScript turns into an infinity, is
    outside the embedding, as NaN and the infinities are. *)
Definition round (x : Q) : Q :=
  if Qeq_bool x 0 then 0
  else
    let a := Qabs x in
    let e := Z.max (floor_log2 a - 52) (-1074) in
    let y := Qred (inject_Z (nearest_even (a / pow2 e)) * pow2 e) in
    if Qle_bool 0 x then y else - y.

(** [a * b] on numbers: the double nearest to the product of the two
    doubles. *)
Definition mul (a b : Q) : Q := round (round a * round b).

(** [a / b] on numbers, for [b] other than zero. *)
Definition div (a b : Q) : Q := round (round a / round b).

End Binary64.

(** ** The formatters with the arithmetic of doubles

    [EmotionUtils], [EmotionVisualizer] and [MockVisualizer] above compute
    percentages on the rational values of the scores.  Here the same
    functions compute them as JavaScript does, each product and quotient
    rounded to a double, and with the upper-case mapping of JavaScript left
    as it is. *)

Module Doubles.

Import JsObject EmotionUtils.

(** [Math.round(value * 100)] *)
Definition percent (value : Q) : Z := Math_round (Binary64.mul value 100).

(** [formatEmotionData] of emotionUtils.ts. *)
Definition formatEmotionData (emotions : Emotions) : list EmotionData :=
  map (fun '(emotion, v) =>
         let normalizedEmotion := toLowerCase emotion in
         let color :=
           if has emotionColors normalizedEmotion
           then match get emotionColors normalizedEmotion with
                | Some c => c
                | None => Val neutralColor
                end
           else Val neutralColor in
         {| emotion := emotion;
            percentage := percent v;
            color := color |})
      emotions.

Section Visualizer.

(** [emotion.charAt(0).toUpperCase() + emotion.slice(1)] on every string of
    JavaScript: the first UTF-16 code unit with the upper-case mapping of
    Unicode applied, and the rest.  [EmotionVisualizer.capitalize] is this
    function on ASCII labels. *)
Variable capitalize : string -> string.

Definition formatEntry (entry : string * Q) : EmotionData :=
  let '(emotion, v) := entry in
  {| emotion := capitalize emotion;
     percentage := percent v;
     color := EmotionVisualizer.displayColor emotion |}.

(** [formatEmotions] of the visualizer. *)
Definition formatEmotions (rawData : option Emotions) : list EmotionData :=
  match rawData with
  | None => EmotionVisualizer.defaultEmotions
  | Some [] => EmotionVisualizer.defaultEmotions
  | Some entries =>
      let formatted :=
        firstn 5 (EmotionVisualizer.sortDesc (map formatEntry entries)) in
      match formatted with
      | [] => EmotionVisualizer.defaultEmotions
      | _ => formatted
      end
  end.

End Visualizer.

(** The normalizer of the mock visualizer,
    [Math.round((emotion.percentage / total) * 100)]; the percentages drawn
    are small integers, whose sum [total] is exact and, with the ranges of
    the draws, at least 55. *)
Definition normalizedEmotions (l : list EmotionData) : list EmotionData :=
  let t := MockVisualizer.total l in
  map (fun e =>
         {| emotion := emotion e;
            percentage :=
              Math_round
                (Binary64.mul (Binary64.div (inject_Z (percentage e)) (inject_Z t)) 100);
            color := color e |})
      l.

End Doubles.

(** * Properties *)

(** ** Strings *)

Module JsStringFacts.

Lemma lower_char_idempotent (c : ascii) : lower_char (lower_char c) = lower_char c.
Proof.
  destruct c as [[] [] [] [] [] [] [] []]; reflexivity.
Qed.

Lemma toLowerCase_idempotent (s : string) : toLowerCase (toLowerCase s) = toLowerCase s.
Proof.
  induction s as [|c s IH]; simpl.
  - reflexivity.
  - now rewrite lower_char_idempotent, IH.
Qed.

Lemma afterSpace_length (s rest : string) :
  afterSpace s = Some rest -> (String.length rest < String.length s)%nat.
Proof.
  destruct s as [|c1 [|c2 [|c3 s3]]]; simpl; try discriminate.
  - destruct (space1 (nat_of_ascii c1)); [|discriminate].
    intros E; injection E as <-. simpl. lia.
  - destruct (space1 (nat_of_ascii c1)).
    + intros E; injection E as <-. simpl. lia.
    + destruct (space2 (nat_of_ascii c1) (nat_of_ascii c2)); [|discriminate].
      intros E; injection E as <-. simpl. lia.
  - destruct (space1 (nat_of_ascii c1)).
    + intros E; injection E as <-. simpl. lia.
    + destruct (space2 (nat_of_ascii c1) (nat_of_ascii c2)).
      * intros E; injection E as <-. simpl. lia.
      * destruct (space3 _ _ _); [|discriminate].
        intros E; injection E as <-. simpl. lia.
Qed.

Lemma afterSpace_empty : afterSpace "" = None.
Proof. reflexivity. Qed.

(** More fuel than characters changes nothing. *)
Lemma dropSpaces_fuel (n m : nat) (s : string) :
  (String.length s <= n)%nat -> (String.length s <= m)%nat ->
  dropSpaces n s = dropSpaces m s.
Proof.
  revert m s. induction n as [|n IH]; intros m s Hn Hm.
  - destruct s; [|simpl in Hn; lia]. destruct m; reflexivity.
  - destruct m as [|m].
    + destruct s; [reflexivity | simpl in Hm; lia].
    + simpl. destruct (afterSpace s) as [rest|] eqn:E; [|reflexivity].
      apply afterSpace_length in E. apply IH; lia.
Qed.

Lemma onlySpaces_fuel (n m : nat) (s : string) :
  (String.length s <= n)%nat -> (String.length s <= m)%nat ->
  onlySpaces n s = onlySpaces m s.
Proof.
  revert m s. induction n as [|n IH]; intros m s Hn Hm.
  - destruct s; [|simpl in Hn; lia]. destruct m; reflexivity.
  - destruct m as [|m].
    + destruct s; [reflexivity | simpl in Hm; lia].
    + destruct s as [|c s]; [reflexivity|].
      cbn [onlySpaces]. destruct (afterSpace (String c s)) as [rest|] eqn:E; [|reflexivity].
      apply afterSpace_length in E. apply IH; lia.
Qed.

(** The equations of [trimStart] and [blank], one character at a time. *)
Lemma trimStart_step (s : string) :
  trimStart s =
  match afterSpace s with Some rest => trimStart rest | None => s end.
Proof.
  unfold trimStart. destruct s as [|c s]; [reflexivity|].
  cbn [String.length dropSpaces].
  destruct (afterSpace (String c s)) as [rest|] eqn:E; [|reflexivity].
  apply afterSpace_length in E. simpl in E. apply dropSpaces_fuel; lia.
Qed.

Lemma blank_step (s : string) :
  blank s =
  match s with
  | EmptyString => true
  | String _ _ =>
      match afterSpace s with Some rest => blank rest | None => false end
  end.
Proof.
  unfold blank. destruct s as [|c s]; [reflexivity|].
  cbn [String.length onlySpaces].
  destruct (afterSpace (String c s)) as [rest|] eqn:E; [|reflexivity].
  apply afterSpace_length in E. simpl in E. apply onlySpaces_fuel; lia.
Qed.

(** Induction along the characters [trim] looks at. *)
Lemma space_induction (P : string -> Prop) :
  P "" ->
  (forall s rest, afterSpace s = Some rest -> P rest -> P s) ->
  (forall s, s <> "" -> afterSpace s = None -> P s) ->
  forall s, P s.
Proof.
  intros Hnil Hspace Hother s.
  remember (String.length s) as n eqn:Hn.
  assert (Hle : (String.length s <= n)%nat) by lia. clear Hn.
  revert s Hle. induction n as [|n IH]; intros s Hle.
  - destruct s; [assumption | simpl in Hle; lia].
  - destruct s as [|c s]; [assumption|].
    destruct (afterSpace (String c s)) as [rest|] eqn:E.
    + apply (Hspace _ rest E). apply IH.
      apply afterSpace_length in E. lia.
    + apply Hother; [discriminate | assumption].
Qed.

Lemma trimStart_blank (s : string) : blank s = true -> trimStart s = "".
Proof.
  induction s as [|s rest E IH|s Hs E] using space_induction.
  - reflexivity.
  - rewrite blank_step, trimStart_step, E.
    destruct s; [discriminate E | exact IH].
  - rewrite blank_step, E. destruct s; [congruence | discriminate].
Qed.

Lemma trimEnd_empty (s : string) : trimEnd s = "" <-> blank s = true.
Proof.
  destruct s as [|c s]; simpl.
  - split; reflexivity.
  - destruct (blank (String c s)); split; congruence.
Qed.

Lemma trimStart_not_blank (s : string) :
  blank s = false -> blank (trimStart s) = false.
Proof.
  induction s as [|s rest E IH|s Hs E] using space_induction.
  - discriminate.
  - rewrite blank_step, trimStart_step, E.
    destruct s; [discriminate E | exact IH].
  - rewrite trimStart_step, E. auto.
Qed.

(** [!text.trim()] holds exactly for the texts that are empty or consist of
    white space only. *)
Lemma trim_empty_iff_blank (s : string) : trim s = "" <-> blank s = true.
Proof.
  unfold trim. split; intros H.
  - destruct (blank s) eqn:B; [reflexivity|].
    apply trimEnd_empty in H. now rewrite (trimStart_not_blank s B) in H.
  - now rewrite (trimStart_blank s H).
Qed.

Lemma truthy_false_iff (s : string) : truthy s = false <-> s = "".
Proof. destruct s; simpl; split; congruence. Qed.

Lemma truthy_trim_blank (s : string) : truthy (trim s) = negb (blank s).
Proof.
  destruct (blank s) eqn:B; simpl.
  - apply truthy_false_iff, trim_empty_iff_blank, B.
  - destruct (truthy (trim s)) eqn:T; [reflexivity|].
    apply truthy_false_iff, trim_empty_iff_blank in T. congruence.
Qed.

(** White space outside ASCII is trimmed like a space. *)
Lemma trim_examples :
  trim (NBSP ++ " so tired " ++ IDEOGRAPHIC_SPACE ++ LINE_SEPARATOR) = "so tired"
  /\ trim ("so" ++ NBSP ++ "tired") = ("so" ++ NBSP ++ "tired")%string
  /\ blank (NBSP ++ IDEOGRAPHIC_SPACE ++ LINE_SEPARATOR ++ " ") = true
  /\ blank (NBSP ++ "x") = false
  /\ blank (String (ascii_of_nat 160) "") = false.
Proof. repeat split; reflexivity. Qed.

Lemma truthy_app_r (a b : string) : truthy b = true -> truthy (a ++ b) = true.
Proof. destruct a; simpl; auto. Qed.

Lemma truthy_app_l (a b : string) : truthy a = true -> truthy (a ++ b) = true.
Proof. destruct a; simpl; [discriminate | auto]. Qed.

End JsStringFacts.

Import JsStringFacts.

(** ** Technique lookup *)

Module TechniqueFacts.

Import EmotionUtils.

Lemma includes_In (l : list string) (x : string) : includes l x = true <-> In x l.
Proof.
  unfold includes. rewrite existsb_exists. split.
  - intros [y [Hy E]]. apply String.eqb_eq in E. now subst.
  - intros H. exists x. split; [assumption | apply String.eqb_refl].
Qed.

Lemma filter_nil_of_none {A : Type} (f : A -> bool) (l : list A) :
  (forall a, In a l -> f a = false) -> filter f l = [].
Proof.
  induction l as [|a l IH]; simpl; intros H.
  - reflexivity.
  - rewrite (H a (or_introl eq_refl)). apply IH. intros b Hb. apply H. now right.
Qed.

Lemma StronglySorted_filter {A : Type} (R : A -> A -> Prop) (f : A -> bool) (l : list A) :
  StronglySorted R l -> StronglySorted R (filter f l).
Proof.
  induction 1 as [|a l Hl IH Ha]; simpl.
  - constructor.
  - destruct (f a).
    + constructor; [assumption|].
      rewrite Forall_forall in *. intros b Hb. apply filter_In in Hb. now apply Ha.
    + assumption.
Qed.

Lemma StronglySorted_map {A B : Type} (R : B -> B -> Prop) (g : A -> B) (l : list A) :
  StronglySorted (fun x y => R (g x) (g y)) l -> StronglySorted R (map g l).
Proof.
  induction 1 as [|a l Hl IH Ha]; simpl; constructor; [assumption|].
  rewrite Forall_forall in *. intros b Hb. apply in_map_iff in Hb as [x [<- Hx]]. auto.
Qed.

(** The technique table is stored in ascending order of technique id. *)
Lemma therapyTechniques_sorted :
  StronglySorted (fun a b => JsString.lt (id a) (id b)) therapyTechniques.
Proof.
  unfold therapyTechniques.
  repeat (constructor; [| repeat constructor; reflexivity]).
  constructor.
Qed.

(** Only four labels have an applicability edge in the table. *)
Lemma forEmotions_within_graphLabels (t : TherapyTechnique) (x : string) :
  In t therapyTechniques -> In x (forEmotions t) ->
  In x ["angry"; "fear"; "sad"; "disgust"].
Proof.
  unfold therapyTechniques.
  intros [<-|[<-|[<-|[<-|[]]]]]; simpl; intuition.
Qed.

Lemma no_listing_technique (emotionName : string) :
  (forall t, In t therapyTechniques ->
             ~ In (toLowerCase emotionName) (forEmotions t)) ->
  getTechniquesForEmotion emotionName = [].
Proof.
  intros H. unfold getTechniquesForEmotion.
  apply filter_nil_of_none. intros t Ht.
  destruct (includes (forEmotions t) (toLowerCase emotionName)) eqn:E; [|reflexivity].
  apply includes_In in E. now elim (H t Ht).
Qed.

(** The lookup answers the empty list exactly on the names whose lower-case
    form is none of the four labels of the table. *)
Lemma getTechniquesForEmotion_nil_iff (emotionName : string) :
  getTechniquesForEmotion emotionName = [] <->
  ~ In (toLowerCase emotionName) ["angry"; "fear"; "sad"; "disgust"].
Proof.
  split.
  - intros E Hin. unfold getTechniquesForEmotion in E.
    assert (D : In deep_breathing
                  (filter (fun t => includes (forEmotions t) (toLowerCase emotionName))
                     therapyTechniques)).
    { apply filter_In. split; [left; reflexivity|].
      apply includes_In. simpl in *. intuition. }
    rewrite E in D. destruct D.
  - intros H. apply no_listing_technique.
    intros t Ht Hin. apply H. eapply forEmotions_within_graphLabels; eauto.
Qed.

(** C10. Technique lookup is case-insensitive in its emotion-name argument:
    for every string [s], [getTechniquesForEmotion s] is the list that
    [getTechniquesForEmotion] returns on the lowercased [s]. *)
Theorem getTechniquesForEmotion_case_insensitive (s : string) :
  getTechniquesForEmotion s = getTechniquesForEmotion (toLowerCase s).
Proof.
  unfold getTechniquesForEmotion. now rewrite toLowerCase_idempotent.
Qed.

(** C4. An emotion name that no technique lists among its applicability
    edges (matched as the lookup matches, in lower case) gets the empty
    list; the lookup is a total function, so no input raises an error.  In
    particular this is the answer for 'happy', which no stored technique
    lists, and for labels the table has never heard of. *)
Theorem getTechniquesForEmotion_no_overlap :
  (forall emotionName : string,
      (forall t, In t therapyTechniques ->
                 ~ In (toLowerCase emotionName) (forEmotions t)) ->
      getTechniquesForEmotion emotionName = [])
  /\ getTechniquesForEmotion "happy" = []
  /\ getTechniquesForEmotion "Nostalgia" = [].
Proof.
  split; [exact no_listing_technique | split; reflexivity].
Qed.

Lemma getTechniquesForEmotion_no_overlap_witness :
  (forall t, In t therapyTechniques -> ~ In (toLowerCase "Calm") (forEmotions t))
  /\ getTechniquesForEmotion "Calm" = [].
Proof.
  assert (H : forall t, In t therapyTechniques ->
                        ~ In (toLowerCase "Calm") (forEmotions t)).
  { intros t Ht Hin. pose proof (forEmotions_within_graphLabels t _ Ht Hin) as G.
    simpl in G. intuition discriminate. }
  split; [exact H | exact (proj1 getTechniquesForEmotion_no_overlap "Calm" H)].
Defined.

(** C5. The technique query is deterministic and reproducibly ordered: the
    answer depends on nothing but the (lowercased) emotion name, so two
    invocations on the same name give the same ordered list; the candidates,
    which the lookup does not score, come in ascending order of technique
    id, and in the order of the table. *)
Theorem getTechniquesForEmotion_deterministic :
  (forall name1 name2 : string,
      toLowerCase name1 = toLowerCase name2 ->
      getTechniquesForEmotion name1 = getTechniquesForEmotion name2)
  /\ (forall emotionName : string,
         StronglySorted JsString.lt (map id (getTechniquesForEmotion emotionName)))
  /\ (forall emotionName : string,
         exists keep : TherapyTechnique -> bool,
           getTechniquesForEmotion emotionName = filter keep therapyTechniques).
Proof.
  split; [| split].
  - intros name1 name2 E. unfold getTechniquesForEmotion. now rewrite E.
  - intros emotionName. apply StronglySorted_map. unfold getTechniquesForEmotion.
    apply StronglySorted_filter, therapyTechniques_sorted.
  - intros emotionName. eexists. reflexivity.
Qed.

Lemma getTechniquesForEmotion_deterministic_witness :
  toLowerCase "SAD" = toLowerCase "Sad"
  /\ getTechniquesForEmotion "SAD" = getTechniquesForEmotion "Sad"
  /\ map id (getTechniquesForEmotion "SAD")
     = ["deep-breathing"; "gratitude-practice"; "grounding-54321"; "positive-reframing"].
Proof.
  split; [reflexivity|].
  split; [exact (proj1 getTechniquesForEmotion_deterministic "SAD" "Sad" eq_refl)|].
  reflexivity.
Defined.

End TechniqueFacts.

(** ** The dominant emotion *)

Module DominantFacts.

Import EmotionUtils.

Lemma gt_true_iff (x y : Q) : gt x y = true <-> y < x.
Proof.
  unfold gt. rewrite negb_true_iff. split; intros H.
  - apply Qnot_le_lt. intros L. apply Qle_bool_iff in L. congruence.
  - destruct (Qle_bool x y) eqn:E; [|reflexivity].
    apply Qle_bool_iff in E. exfalso. apply (Qlt_not_le _ _ H E).
Qed.

Lemma gt_false_iff (x y : Q) : gt x y = false <-> x <= y.
Proof.
  unfold gt. rewrite negb_false_iff. apply Qle_bool_iff.
Qed.

(** No entry improves on the running maximum: the loop leaves its two
    variables as they are. *)
Lemma fold_dominant_no_improvement (l : Emotions) (m : Q) (d : string) :
  Forall (fun e => snd e <= m) l ->
  fold_left dominant_step l (m, d) = (m, d).
Proof.
  induction 1 as [|[k v] l Hv Hl IH]; simpl.
  - reflexivity.
  - simpl in Hv. apply gt_false_iff in Hv. now rewrite Hv.
Qed.

(** Some entry improves on the running maximum: the loop ends on the first
    entry that carries the largest score. *)
Lemma fold_dominant_first_maximum (l : Emotions) :
  forall (m : Q) (d : string),
    Exists (fun e => m < snd e) l ->
    exists before label score after,
      l = before ++ (label, score) :: after
      /\ Forall (fun e => snd e < score) before
      /\ Forall (fun e => snd e <= score) after
      /\ m < score
      /\ fold_left dominant_step l (m, d) = (score, label).
Proof.
  induction l as [|[k v] l IH]; intros m d Hex.
  - inversion Hex.
  - simpl. destruct (gt v m) eqn:G.
    + apply gt_true_iff in G.
      destruct (existsb (fun e => gt (snd e) v) l) eqn:X.
      * assert (Hex' : Exists (fun e => v < snd e) l).
        { apply existsb_exists in X as [e [He Hg]]. apply Exists_exists.
          exists e. split; [assumption | now apply gt_true_iff]. }
        destruct (IH v k Hex') as (before & label & score & after & E & Hb & Ha & Hm & F).
        exists ((k, v) :: before), label, score, after.
        repeat split; try assumption.
        -- now rewrite E.
        -- constructor; assumption.
        -- eapply Qlt_trans; eassumption.
      * assert (Hall : Forall (fun e => snd e <= v) l).
        { apply Forall_forall. intros e He. apply gt_false_iff.
          destruct (gt (snd e) v) eqn:Ge; [|reflexivity].
          assert (existsb (fun e => gt (snd e) v) l = true)
            by (apply existsb_exists; eauto).
          congruence. }
        exists [], k, v, l. repeat split; try assumption.
        -- constructor.
        -- now apply fold_dominant_no_improvement.
    + apply gt_false_iff in G.
      assert (Hex' : Exists (fun e => m < snd e) l).
      { inversion Hex as [? ? H|]; subst; [|assumption].
        simpl in H. exfalso. apply (Qlt_not_le _ _ H G). }
      destruct (IH m d Hex') as (before & label & score & after & E & Hb & Ha & Hm & F).
      exists ((k, v) :: before), label, score, after.
      repeat split; try assumption.
      * now rewrite E.
      * constructor; [|assumption]. simpl. eapply Qle_lt_trans; eassumption.
Qed.

(** C3, as the code has it. The dominant label is the first label, in the
    iteration order of the score mapping, that attains the maximal score,
    provided some score is positive; when no score is positive the answer
    is 'neutral'.  The mapping is all the function receives: a tie is
    settled by the order of the entries. *)
Theorem getDominantEmotion_first_maximum (emotions : Emotions) :
  (Forall (fun e => snd e <= 0) emotions ->
   getDominantEmotion emotions = "neutral")
  /\ (Exists (fun e => 0 < snd e) emotions ->
      exists before score after,
        emotions = before ++ (getDominantEmotion emotions, score) :: after
        /\ Forall (fun e => snd e < score) before
        /\ Forall (fun e => snd e <= score) after).
Proof.
  unfold getDominantEmotion. split; intros H.
  - now rewrite fold_dominant_no_improvement.
  - destruct (fold_dominant_first_maximum emotions 0 "neutral" H)
      as (before & label & score & after & E & Hb & Ha & _ & F).
    rewrite F. simpl. exists before, score, after. auto.
Qed.

Lemma getDominantEmotion_first_maximum_witness :
  Exists (fun e : string * Q => 0 < snd e) [("calm", 1 # 5); ("sad", 2 # 5); ("fear", 2 # 5)]
  /\ getDominantEmotion [("calm", 1 # 5); ("sad", 2 # 5); ("fear", 2 # 5)] = "sad"
  /\ exists before score after,
       [("calm", 1 # 5); ("sad", 2 # 5); ("fear", 2 # 5)]
       = before ++ (getDominantEmotion [("calm", 1 # 5); ("sad", 2 # 5); ("fear", 2 # 5)], score)
                     :: after
       /\ Forall (fun e => snd e < score) before
       /\ Forall (fun e => snd e <= score) after.
Proof.
  assert (H : Exists (fun e : string * Q => 0 < snd e)
                [("calm", 1 # 5); ("sad", 2 # 5); ("fear", 2 # 5)]).
  { apply Exists_cons_hd. reflexivity. }
  split; [exact H|]. split; [reflexivity|].
  exact (proj2 (getDominantEmotion_first_maximum _) H).
Defined.

(** C3, as stated, fails. Two score mappings with the same labels and the
    same scores, listed in different orders, get different dominant labels:
    the tie between 'sad' and 'angry' goes to whichever comes first. *)
Lemma getDominantEmotion_tie_by_entry_order :
  Permutation [("sad", 1 # 2); ("angry", 1 # 2)] [("angry", 1 # 2); ("sad", 1 # 2)]
  /\ getDominantEmotion [("sad", 1 # 2); ("angry", 1 # 2)] = "sad"
  /\ getDominantEmotion [("angry", 1 # 2); ("sad", 1 # 2)] = "angry".
Proof.
  split; [apply perm_swap | split; reflexivity].
Qed.

(** With no positive score the answer need not be a label of the mapping. *)
Lemma getDominantEmotion_without_positive_score :
  getDominantEmotion [("sad", 0)] = "neutral" /\ getDominantEmotion [] = "neutral".
Proof. split; reflexivity. Qed.

End DominantFacts.

(** ** Percentages *)

Module PercentageFacts.

Import JsObject EmotionUtils EmotionVisualizer.

Lemma Math_round_upper (x : Q) : inject_Z (Math_round x) <= x + (1 # 2).
Proof. unfold Math_round. apply Qfloor_le. Qed.

Lemma Math_round_lower (x : Q) : x - (1 # 2) < inject_Z (Math_round x).
Proof.
  unfold Math_round.
  pose proof (Qlt_floor (x + (1 # 2))) as H.
  rewrite inject_Z_plus in H. change (inject_Z 1) with 1 in H. lra.
Qed.

Lemma fold_left_percentage (l : list EmotionData) (acc : Z) :
  fold_left (fun a curr => (a + percentage curr)%Z) l acc
  = (acc + fold_right Z.add 0%Z (map percentage l))%Z.
Proof.
  revert acc. induction l as [|e l IH]; intros acc; simpl.
  - lia.
  - rewrite IH. lia.
Qed.

End PercentageFacts.

(** ** Formatting for display *)

Module FormattingFacts.

Import JsObject EmotionUtils EmotionVisualizer.

Lemma get_undefined {A : Type} (t : table A) (key : string) :
  own t key = None -> inherited key = false -> get t key = None.
Proof. unfold get. now intros -> ->. Qed.

Lemma In_insertDesc (a x : EmotionData) (l : list EmotionData) :
  In x (insertDesc a l) <-> x = a \/ In x l.
Proof.
  induction l as [|b l IH]; simpl.
  - intuition.
  - destruct (percentage a <? percentage b)%Z; simpl; rewrite ?IH; intuition.
Qed.

Lemma In_sortDesc (x : EmotionData) (l : list EmotionData) :
  In x (sortDesc l) <-> In x l.
Proof.
  induction l as [|a l IH]; simpl.
  - reflexivity.
  - rewrite In_insertDesc, IH. intuition.
Qed.

Lemma In_firstn {A : Type} (n : nat) (x : A) (l : list A) :
  In x (firstn n l) -> In x l.
Proof.
  intros H. rewrite <- (firstn_skipn n l). apply in_or_app. now left.
Qed.

Lemma insertDesc_not_nil (a : EmotionData) (l : list EmotionData) :
  insertDesc a l <> [].
Proof.
  destruct l as [|b l]; simpl; [discriminate|].
  destruct (percentage a <? percentage b)%Z; discriminate.
Qed.

Lemma formatEmotions_nonempty_input (e : string * Q) (l : Emotions) :
  formatEmotions (Some (e :: l)) = firstn 5 (sortDesc (map formatEntry (e :: l)))
  /\ formatEmotions (Some (e :: l)) <> [].
Proof.
  unfold formatEmotions.
  destruct (sortDesc (map formatEntry (e :: l))) as [|x s] eqn:E.
  - simpl in E. now apply insertDesc_not_nil in E.
  - simpl. split; [reflexivity | discriminate].
Qed.

Lemma formatEmotionData_color (emotions : Emotions) (e : EmotionData) :
  In e (formatEmotionData emotions) ->
  own emotionColors (toLowerCase (emotion e)) = None ->
  inherited (toLowerCase (emotion e)) = false ->
  color e = Val "#4F46E5".
Proof.
  unfold formatEmotionData. intros H Hown Hinh.
  apply in_map_iff in H as [[k v] [<- _]]. cbn [emotion color] in *.
  unfold has. now rewrite (get_undefined _ _ Hown Hinh).
Qed.

Lemma displayColor_default (label : string) :
  own EMOTION_COLORS (toLowerCase label) = None ->
  inherited (toLowerCase label) = false ->
  displayColor label = Val "#4F46E5".
Proof.
  intros Hown Hinh. unfold displayColor. now rewrite (get_undefined _ _ Hown Hinh).
Qed.

(** A label that names a member of [Object.prototype] finds that member in
    either color table. *)
Lemma inherited_label_color :
  map color (formatEmotionData [("constructor", 1)]) = [Builtin "constructor"]
  /\ map color (formatEmotions (Some [("constructor", 1)])) = [Builtin "constructor"].
Proof. split; reflexivity. Qed.

End FormattingFacts.

(** ** The therapy session *)

Module SessionFacts.

Import EmotionUtils Api Effects TherapySession.

Ltac run_handler :=
  unfold run, sendMessage, analyzeEmotions, handleTextChange, debounceFires,
    HomePage.analyzeEmotions, HomePage.handleDemoTextChange,
    setMessages, setInputText, setAudioBlob, setLoading, setCurrentEmotions,
    setIsAnalyzingEmotions, setPendingAnalysis,
    HomePage.setDemoText, HomePage.setEmotions, HomePage.setIsAnalyzing,
    HomePage.setPendingAnalysis,
    try_catch, bind, update, snapshot, post, ret;
  cbn [fst snd].

Section WithServer.

Variable server : Request -> option Reply.
Variable sessionId : option string.

(** The request a send issues: the audio endpoint when a recording is
    attached, the text endpoint otherwise. *)
Lemma sendMessage_completed (now1 now2 : Z) (st : State) (log : list Request) :
  disabled st = false ->
  exists (req : Request) (reply : Message),
    messages (fst (run (sendMessage server sessionId now1 now2) st log))
    = messages st
        ++ [ {| id := toString now1; text := trim (inputText st); sender := user;
                emotions := None |};
             reply ]
    /\ snd (run (sendMessage server sessionId now1 now2) st log) = log ++ [req]
    /\ id reply = toString (now2 + 1)
    /\ sender reply = ai
    /\ match server req with
       | Some r => text reply = response_text r /\ emotions reply = detected_emotions r
       | None => text reply = apology /\ emotions reply = None
       end.
Proof.
  unfold disabled. intros D. apply orb_false_iff in D as [L G].
  run_handler. rewrite G, L. cbn [orb fst snd].
  destruct (audioBlob st) as [blob|]; cbn [fst snd].
  - set (req := AnalyzeAudio blob _ _).
    exists req. destruct (server req) as [r|] eqn:E; cbn [fst snd messages].
    + eexists. rewrite <- app_assoc. cbn [app]. repeat split.
    + eexists. rewrite <- app_assoc. cbn [app]. repeat split.
  - set (req := AnalyzeText _ _).
    exists req. destruct (server req) as [r|] eqn:E; cbn [fst snd messages].
    + eexists. rewrite <- app_assoc. cbn [app]. repeat split.
    + eexists. rewrite <- app_assoc. cbn [app]. repeat split.
Qed.

Lemma sendMessage_disabled (now1 now2 : Z) (st : State) (log : list Request) :
  disabled st = true ->
  run (sendMessage server sessionId now1 now2) st log = (st, log).
Proof.
  unfold disabled. intros D. run_handler.
  rewrite orb_comm in D. rewrite D. now destruct st.
Qed.

Lemma analyzeEmotions_messages (text : string) (st : State) (log : list Request) :
  messages (fst (run (analyzeEmotions server text) st log)) = messages st.
Proof.
  run_handler. destruct (truthy (trim text)); cbn [negb fst snd]; [|reflexivity].
  destruct (server _) as [r|]; cbn [fst snd]; [|reflexivity].
  destruct (detected_emotions r); reflexivity.
Qed.

Lemma handle_messages (ev : Event) (st : State) (log : list Request) :
  exists added : list Message,
    messages (fst (run (handle server sessionId ev) st log)) = messages st ++ added
    /\ (added = []
        \/ exists userTurn assistantTurn,
             added = [userTurn; assistantTurn]
             /\ sender userTurn = user /\ sender assistantTurn = ai).
Proof.
  destruct ev as [text | | blob | now1 now2]; cbn [handle].
  - exists []. rewrite app_nil_r. split; [|now left].
    run_handler. destruct (truthy (trim text)); reflexivity.
  - exists []. rewrite app_nil_r. split; [|now left].
    unfold debounceFires, run, bind, snapshot. cbn [fst snd].
    destruct (pendingAnalysis st) as [text|] eqn:P; [|reflexivity].
    unfold setPendingAnalysis, update. cbn [fst snd].
    match goal with
    | |- messages (fst (snd (analyzeEmotions server text (?s, log)))) = _ =>
        change (messages (fst (run (analyzeEmotions server text) s log)) = messages st);
        now rewrite analyzeEmotions_messages
    end.
  - exists []. rewrite app_nil_r. split; [|now left]. reflexivity.
  - destruct (disabled st) eqn:D.
    + exists []. rewrite app_nil_r. split; [|now left].
      now rewrite sendMessage_disabled.
    + destruct (sendMessage_completed now1 now2 st log D)
        as (req & reply & E & _ & _ & Hai & _).
      eexists. split; [exact E|]. right. eauto.
Qed.

(** What the analysis endpoint detects is stored as it arrives. *)
Lemma analyzeEmotions_stores_detected
  (text : string) (st : State) (log : list Request) (r : Reply) (detected : Emotions) :
  blank text = false ->
  server (AnalyzeTextEmotions (trim text)) = Some r ->
  detected_emotions r = Some detected ->
  detected <> [] ->
  currentEmotions (fst (run (analyzeEmotions server text) st log)) = detected.
Proof.
  intros B S D N. run_handler. rewrite truthy_trim_blank, B. cbn [negb].
  rewrite S. cbn [fst snd]. rewrite D. now destruct detected.
Qed.

(** C7. A send whose required fields are empty, no text other than white
    space and no audio attachment, returns at once: the state, the message
    sequence in it, and the log of issued requests are what they were. *)
Theorem sendMessage_rejects_empty_input
  (now1 now2 : Z) (st : State) (log : list Request) :
  blank (inputText st) = true ->
  audioBlob st = None ->
  run (sendMessage server sessionId now1 now2) st log = (st, log)
  /\ messages (fst (run (sendMessage server sessionId now1 now2) st log)) = messages st
  /\ snd (run (sendMessage server sessionId now1 now2) st log) = log.
Proof.
  intros B A.
  assert (D : disabled st = true).
  { unfold disabled. rewrite truthy_trim_blank, B, A. cbn. apply orb_true_r. }
  rewrite (sendMessage_disabled now1 now2 st log D). auto.
Qed.

(** C8. A completed run, a send that passes the guard, appends exactly one
    user turn followed by exactly one assistant turn to the message
    sequence; whatever happens to the component, the sequence only grows at
    its end, by such pairs, so earlier turns are neither removed nor
    reordered. *)
Theorem completed_run_appends_one_turn :
  (forall (now1 now2 : Z) (st : State) (log : list Request),
      disabled st = false ->
      exists userTurn assistantTurn : Message,
        messages (fst (run (sendMessage server sessionId now1 now2) st log))
        = messages st ++ [userTurn; assistantTurn]
        /\ sender userTurn = user
        /\ text userTurn = trim (inputText st)
        /\ sender assistantTurn = ai)
  /\ (forall (evs : list Event) (st : State) (log : list Request),
         exists turns : list (Message * Message),
           messages (fst (handleAll server sessionId evs (st, log)))
           = messages st ++ flat_map (fun t => [fst t; snd t]) turns
           /\ Forall (fun t => sender (fst t) = user /\ sender (snd t) = ai) turns).
Proof.
  split.
  - intros now1 now2 st log D.
    destruct (sendMessage_completed now1 now2 st log D)
      as (req & reply & E & _ & _ & Hai & _).
    eexists; exists reply. split; [exact E|]. auto.
  - induction evs as [|ev evs IH]; intros st log.
    + exists []. cbn. now rewrite app_nil_r.
    + cbn [handleAll fst snd].
      destruct (handle_messages ev st log) as (added & E & Hadd).
      destruct (run (handle server sessionId ev) st log) as [st1 log1] eqn:R.
      cbn [fst] in E.
      destruct (IH st1 log1) as (turns & Et & Ht).
      destruct Hadd as [-> | (u & a & -> & Hu & Ha)].
      * exists turns. rewrite Et, E, app_nil_r. auto.
      * exists ((u, a) :: turns). rewrite Et, E, <- app_assoc. cbn. auto.
Qed.

(** C2. For a text that is empty or white space only, the analysis path
    sets the canonical default distribution {neutral: 0.9, calm: 0.1} and
    issues no request: this holds for the debounced analysis function and
    for the change handler (which schedules no analysis either), in the
    therapy session and on the home page.  The default is not the empty
    map. *)
Theorem blank_text_short_circuits (text : string) :
  blank text = true ->
  (forall (st : State) (log : list Request),
      currentEmotions (fst (run (analyzeEmotions server text) st log))
      = [("neutral", 9 # 10); ("calm", 1 # 10)]
      /\ snd (run (analyzeEmotions server text) st log) = log)
  /\ (forall (st : State) (log : list Request),
         currentEmotions (fst (run (handleTextChange text) st log))
         = [("neutral", 9 # 10); ("calm", 1 # 10)]
         /\ pendingAnalysis (fst (run (handleTextChange text) st log))
            = pendingAnalysis st
         /\ snd (run (handleTextChange text) st log) = log)
  /\ (forall (st : HomePage.State) (log : list Request),
         HomePage.emotions (fst (run (HomePage.analyzeEmotions server text) st log))
         = Some [("neutral", 9 # 10); ("calm", 1 # 10)]
         /\ snd (run (HomePage.analyzeEmotions server text) st log) = log)
  /\ (forall (st : HomePage.State) (log : list Request),
         HomePage.emotions (fst (run (HomePage.handleDemoTextChange text) st log))
         = Some [("neutral", 9 # 10); ("calm", 1 # 10)]
         /\ HomePage.pendingAnalysis (fst (run (HomePage.handleDemoTextChange text) st log))
            = HomePage.pendingAnalysis st
         /\ snd (run (HomePage.handleDemoTextChange text) st log) = log)
  /\ defaultDistribution <> [].
Proof.
  intros B.
  assert (T : truthy (trim text) = false) by (now rewrite truthy_trim_blank, B).
  repeat split; try discriminate; run_handler; now rewrite T.
Qed.

End WithServer.

Lemma sendMessage_rejects_empty_input_witness :
  blank (inputText (fst (run (handleTextChange (" " ++ NBSP ++ LINE_SEPARATOR)%string) initialState []))) = true
  /\ audioBlob (fst (run (handleTextChange (" " ++ NBSP ++ LINE_SEPARATOR)%string) initialState [])) = None
  /\ run (sendMessage (fun _ => None) (Some "session-1") 1000%Z 1001%Z)
         (fst (run (handleTextChange (" " ++ NBSP ++ LINE_SEPARATOR)%string) initialState [])) []
     = (fst (run (handleTextChange (" " ++ NBSP ++ LINE_SEPARATOR)%string) initialState []), []).
Proof.
  split; [reflexivity|]. split; [reflexivity|].
  exact (proj1 (sendMessage_rejects_empty_input (fun _ => None) (Some "session-1")
                  1000%Z 1001%Z (fst (run (handleTextChange (" " ++ NBSP ++ LINE_SEPARATOR)%string) initialState [])) []
                  eq_refl eq_refl)).
Defined.

Lemma completed_run_appends_one_turn_witness :
  disabled (fst (run (handleTextChange " I feel sad ") initialState [])) = false
  /\ exists userTurn assistantTurn : Message,
       messages
         (fst (run (sendMessage
                      (fun _ => Some {| response_text := "I hear you.";
                                        detected_emotions := Some [("sad", 1)] |})
                      None 1000%Z 1001%Z)
                 (fst (run (handleTextChange " I feel sad ") initialState [])) []))
       = messages (fst (run (handleTextChange " I feel sad ") initialState []))
           ++ [userTurn; assistantTurn]
       /\ sender userTurn = user
       /\ text userTurn
          = trim (inputText (fst (run (handleTextChange " I feel sad ") initialState [])))
       /\ sender assistantTurn = ai.
Proof.
  split; [reflexivity|].
  exact (proj1 (completed_run_appends_one_turn
                  (fun _ => Some {| response_text := "I hear you.";
                                    detected_emotions := Some [("sad", 1)] |})
                  None)
           1000%Z 1001%Z (fst (run (handleTextChange " I feel sad ") initialState [])) []
           eq_refl).
Defined.

Lemma blank_text_short_circuits_witness :
  blank (NBSP ++ " " ++ IDEOGRAPHIC_SPACE)%string = true
  /\ currentEmotions
       (fst (run (analyzeEmotions
                    (fun _ => Some {| response_text := "";
                                      detected_emotions := Some [("sad", 1)] |})
                    (NBSP ++ " " ++ IDEOGRAPHIC_SPACE)%string)
               initialState []))
     = [("neutral", 9 # 10); ("calm", 1 # 10)]
  /\ snd (run (analyzeEmotions
                 (fun _ => Some {| response_text := "";
                                   detected_emotions := Some [("sad", 1)] |})
                 (NBSP ++ " " ++ IDEOGRAPHIC_SPACE)%string)
            initialState [])
     = [].
Proof.
  split; [reflexivity|].
  exact (proj1 (blank_text_short_circuits
                  (fun _ => Some {| response_text := "";
                                    detected_emotions := Some [("sad", 1)] |})
                  (NBSP ++ " " ++ IDEOGRAPHIC_SPACE)%string eq_refl)
           initialState []).
Defined.

(** A text with something in it does reach the analysis endpoint. *)
Lemma analyzeEmotions_issues_request :
  run (analyzeEmotions (fun _ => Some {| response_text := "";
                                         detected_emotions := Some [("sad", 1)] |})
         " so tired ")
    initialState []
  = ({| messages := [greeting]; inputText := ""; audioBlob := None; loading := false;
        currentEmotions := [("sad", 1)]; isAnalyzingEmotions := false;
        pendingAnalysis := None |},
     [AnalyzeTextEmotions "so tired"]).
Proof. reflexivity. Qed.

End SessionFacts.

(** ** The suggested techniques and the reply *)

Module ResponseFacts.

Import JsObject EmotionUtils EmotionVisualizer Api Effects TherapySession.

Lemma get_undefined_iff {A : Type} (t : table A) (key : string) :
  get t key = None <-> own t key = None /\ inherited key = false.
Proof.
  unfold get. destruct (own t key); [|destruct (inherited key)];
    split; intros H; try discriminate; try (destruct H; discriminate); auto.
Qed.

Lemma own_None {A : Type} (t : table A) (key : string) :
  ~ In key (map fst t) -> own t key = None.
Proof.
  induction t as [|[k v] t IH]; simpl; intros H.
  - reflexivity.
  - destruct (String.eqb k key) eqn:E.
    + apply String.eqb_eq in E. tauto.
    + apply IH. tauto.
Qed.

(** Every stored list of tips has three entries. *)
Lemma getTherapyTips_three (emotion : string) :
  inherited emotion = false ->
  exists tips, getTherapyTips emotion = Val tips /\ List.length tips = 3%nat.
Proof.
  intros H. unfold getTherapyTips, get. rewrite H.
  unfold emotionTips, own.
  repeat (match goal with
          | |- context [String.eqb ?k emotion] => destruct (String.eqb k emotion)
          end; [eexists; split; reflexivity|]).
  eexists; split; reflexivity.
Qed.

(** Where the lookup does fall back: a label that is no key of the tips
    table and does not name a member of [Object.prototype] gets the Neutral
    tips, and the list renders. *)
Lemma getTherapyTips_fallback (emotion : string) :
  ~ In emotion (map fst emotionTips) ->
  inherited emotion = false ->
  getTherapyTips emotion = Val neutralTips
  /\ renderTips (getTherapyTips emotion)
     = Some [ (1%nat, "Practice regular mindfulness meditation");
              (2%nat, "Set goals for personal growth");
              (3%nat, "Engage in activities that bring you peace") ].
Proof.
  intros Hown Hinh.
  assert (E : getTherapyTips emotion = Val neutralTips).
  { unfold getTherapyTips.
    now rewrite (proj2 (get_undefined_iff _ _) (conj (own_None _ _ Hown) Hinh)). }
  split; [exact E|]. now rewrite E.
Qed.

(** A send whose request fails ends with the fixed apology, which is not
    empty; a send that is answered shows the text of the answer as it is. *)
Lemma sendMessage_reply_text (server : Request -> option Reply)
  (sessionId : option string) (now1 now2 : Z) (st : State) (log : list Request) :
  disabled st = false ->
  exists (req : Request) (earlier : list Message) (reply : Message),
    snd (run (sendMessage server sessionId now1 now2) st log) = log ++ [req]
    /\ messages (fst (run (sendMessage server sessionId now1 now2) st log))
       = earlier ++ [reply]
    /\ sender reply = ai
    /\ text reply = match server req with
                    | Some r => response_text r
                    | None => apology
                    end
    /\ truthy apology = true.
Proof.
  intros D.
  destruct (SessionFacts.sendMessage_completed server sessionId now1 now2 st log D)
    as (req & reply & E & L & _ & Hai & Hr).
  exists req; eexists; exists reply.
  split; [exact L|]. split; [| split; [exact Hai | split; [|reflexivity]]].
  - rewrite E. change [?u; reply] with ([u] ++ [reply]).
    rewrite app_assoc. reflexivity.
  - destruct (server req); tauto.
Qed.

(** C1. The tips lookup does not fall back to the Neutral tips for every
    unknown dominant label.  When the analysis endpoint answers a text with
    the distribution [{"__proto__": 1}], the session stores that
    distribution and hands it to the visualizer, whose dominant label is
    then "__proto__".  The label is no key of the tips table, yet the lookup
    [emotionTips[emotion] || emotionTips['Neutral']] does not reach its
    fallback: the property read finds the member inherited from
    [Object.prototype], which is truthy and is not a list of tips, and
    rendering the suggested techniques throws. *)
Theorem tips_lookup_misses_fallback :
  let server := fun _ : Request =>
    Some {| response_text := "I hear you.";
            detected_emotions := Some [("__proto__", 1)] |} in
  let st := fst (run (analyzeEmotions server "hello") initialState []) in
  let shown := displayEmotions false (Some (currentEmotions st)) in
  currentEmotions st = [("__proto__", 1)]
  /\ dominantEmotion shown = "__proto__"
  /\ ~ In (dominantEmotion shown) (map fst emotionTips)
  /\ getTherapyTips (dominantEmotion shown) = Builtin "__proto__"
  /\ getTherapyTips (dominantEmotion shown) <> Val neutralTips
  /\ renderTips (getTherapyTips (dominantEmotion shown)) = None.
Proof.
  cbv zeta.
  split; [reflexivity|]. split; [reflexivity|].
  split; [vm_compute; intuition discriminate|].
  split; [reflexivity|]. split; [vm_compute; discriminate | reflexivity].
Qed.

End ResponseFacts.

(** ** What the visualizer displays *)

Module DisplayFacts.

Import JsObject EmotionUtils EmotionVisualizer EmotionIcons.

(** Descending order of the displayed percentages. *)
Abbreviation descending :=
  (StronglySorted (fun a b : EmotionData => (percentage b <= percentage a)%Z)).

Lemma insertDesc_sorted (a : EmotionData) (l : list EmotionData) :
  descending l -> descending (insertDesc a l).
Proof.
  induction 1 as [|b l Hl IH Hb]; simpl.
  - repeat constructor.
  - destruct (percentage a <? percentage b)%Z eqn:C.
    + apply Z.ltb_lt in C. constructor; [exact IH|].
      apply Forall_forall. intros x Hx.
      apply FormattingFacts.In_insertDesc in Hx as [-> | Hx]; [lia|].
      rewrite Forall_forall in Hb. auto.
    + apply Z.ltb_ge in C. constructor; [constructor; assumption|].
      constructor; [assumption|].
      eapply Forall_impl; [|exact Hb]. cbn. intros; lia.
Qed.

Lemma sortDesc_sorted (l : list EmotionData) : descending (sortDesc l).
Proof.
  induction l as [|a l IH]; simpl; [constructor | now apply insertDesc_sorted].
Qed.

Lemma insertDesc_perm (a : EmotionData) (l : list EmotionData) :
  Permutation (insertDesc a l) (a :: l).
Proof.
  induction l as [|b l IH]; simpl.
  - reflexivity.
  - destruct (percentage a <? percentage b)%Z.
    + rewrite IH. apply perm_swap.
    + reflexivity.
Qed.

Lemma sortDesc_perm (l : list EmotionData) : Permutation (sortDesc l) l.
Proof.
  induction l as [|a l IH]; simpl; [reflexivity|].
  rewrite insertDesc_perm. now constructor.
Qed.

(** Entries with the same percentage keep their relative order. *)
Lemma insertDesc_stable (p : Z) (a : EmotionData) (l : list EmotionData) :
  descending l ->
  filter (fun e => (percentage e =? p)%Z) (insertDesc a l)
  = filter (fun e => (percentage e =? p)%Z) (a :: l).
Proof.
  induction 1 as [|b l Hl IH Hb]; [reflexivity|].
  cbn [insertDesc]. destruct (percentage a <? percentage b)%Z eqn:C; [|reflexivity].
  apply Z.ltb_lt in C. cbn [filter] in *.
  destruct (percentage b =? p)%Z eqn:B; destruct (percentage a =? p)%Z eqn:A;
    rewrite IH; try reflexivity.
  apply Z.eqb_eq in A, B. lia.
Qed.

Lemma sortDesc_stable (p : Z) (l : list EmotionData) :
  filter (fun e => (percentage e =? p)%Z) (sortDesc l)
  = filter (fun e => (percentage e =? p)%Z) l.
Proof.
  induction l as [|a l IH]; [reflexivity|].
  cbn [sortDesc fold_right]. fold (sortDesc l).
  rewrite insertDesc_stable by apply sortDesc_sorted.
  cbn [filter]. now rewrite IH.
Qed.

Lemma descending_firstn (n : nat) (l : list EmotionData) :
  descending l -> descending (firstn n l).
Proof.
  intros H. revert n. induction H as [|a l Hl IH Ha]; intros [|n]; simpl;
    try constructor; auto.
  apply Forall_forall. intros x Hx. apply FormattingFacts.In_firstn in Hx.
  rewrite Forall_forall in Ha. auto.
Qed.

Lemma defaultEmotions_descending : descending defaultEmotions.
Proof.
  unfold defaultEmotions.
  repeat (constructor; [| repeat constructor; cbn; lia]). constructor.
Qed.

(** X1. Whatever mapping it is given, absent and empty ones included, the
    visualizer displays between one and five entries, in descending order of
    percentage. *)
Theorem formatEmotions_shape (rawData : option Emotions) :
  (1 <= List.length (formatEmotions rawData) <= 5)%nat
  /\ descending (formatEmotions rawData).
Proof.
  unfold Emotions in *.
  destruct rawData as [[|e l]|]; try (split; [simpl; lia | apply defaultEmotions_descending]).
  destruct (FormattingFacts.formatEmotions_nonempty_input e l) as [E N].
  rewrite E in *. split.
  - split.
    + destruct (firstn 5 _); [congruence | simpl; lia].
    + apply firstn_le_length.
  - apply descending_firstn, sortDesc_sorted.
Qed.

(** X2. The sort behind the display is a stable sort: its result is a
    descending permutation of its input in which entries of equal percentage
    keep their order.  So the display hides nothing when the mapping has at
    most five labels, and otherwise hides only entries that are no larger
    than every entry shown. *)
Theorem formatEmotions_hides_smallest (entries : Emotions) :
  entries <> [] ->
  exists hidden : list EmotionData,
    Permutation (formatEmotions (Some entries) ++ hidden) (map formatEntry entries)
    /\ descending (formatEmotions (Some entries) ++ hidden)
    /\ (forall p : Z,
           filter (fun e => (percentage e =? p)%Z) (formatEmotions (Some entries) ++ hidden)
           = filter (fun e => (percentage e =? p)%Z) (map formatEntry entries))
    /\ List.length hidden = (List.length entries - 5)%nat.
Proof.
  intros N. unfold Emotions in *. destruct entries as [|e l]; [congruence|].
  rewrite (proj1 (FormattingFacts.formatEmotions_nonempty_input e l)).
  exists (skipn 5 (sortDesc (map formatEntry (e :: l)))).
  rewrite firstn_skipn. repeat split.
  - apply sortDesc_perm.
  - apply sortDesc_sorted.
  - intros p. apply sortDesc_stable.
  - rewrite length_skipn, (Permutation_length (sortDesc_perm _)), length_map.
    reflexivity.
Qed.

Lemma formatEmotions_hides_smallest_witness :
  [("calm", 1 # 10); ("sad", 1 # 2)] <> []
  /\ exists hidden : list EmotionData,
       Permutation (formatEmotions (Some [("calm", 1 # 10); ("sad", 1 # 2)]) ++ hidden)
         (map formatEntry [("calm", 1 # 10); ("sad", 1 # 2)])
       /\ descending (formatEmotions (Some [("calm", 1 # 10); ("sad", 1 # 2)]) ++ hidden)
       /\ (forall p : Z,
              filter (fun e => (percentage e =? p)%Z)
                (formatEmotions (Some [("calm", 1 # 10); ("sad", 1 # 2)]) ++ hidden)
              = filter (fun e => (percentage e =? p)%Z)
                  (map formatEntry [("calm", 1 # 10); ("sad", 1 # 2)]))
       /\ List.length hidden
          = (List.length [("calm", 1 # 10); ("sad", 1 # 2)] - 5)%nat.
Proof.
  assert (N : [("calm", 1 # 10); ("sad", 1 # 2)] <> []) by discriminate.
  split; [exact N|].
  exact (formatEmotions_hides_smallest [("calm", 1 # 10); ("sad", 1 # 2)] N).
Defined.

Lemma Math_round_monotone (x y : Q) : x <= y -> (Math_round x <= Math_round y)%Z.
Proof. intros H. unfold Math_round. apply Qfloor_resp_le. lra. Qed.

(** Scores a full point apart are shown with different percentages. *)
Lemma Math_round_separated (x y : Q) : x + 1 <= y -> (Math_round x < Math_round y)%Z.
Proof.
  intros H. rewrite Zlt_Qlt.
  pose proof (PercentageFacts.Math_round_upper x).
  pose proof (PercentageFacts.Math_round_lower y). lra.
Qed.

Lemma insertDesc_head (a x : EmotionData) (rest : list EmotionData) :
  insertDesc a (x :: rest)
  = if (percentage a <? percentage x)%Z then x :: insertDesc a rest else a :: x :: rest.
Proof. reflexivity. Qed.

(** The head of the sorted list is the first entry of largest percentage. *)
Lemma sortDesc_first_maximum (before : list EmotionData) (x : EmotionData)
  (after : list EmotionData) :
  Forall (fun e => (percentage e < percentage x)%Z) before ->
  Forall (fun e => (percentage e <= percentage x)%Z) after ->
  exists rest, sortDesc (before ++ x :: after) = x :: rest.
Proof.
  intros Hb Ha. induction Hb as [|a before Hlt Hb IH].
  - cbn [app sortDesc fold_right]. fold (sortDesc after).
    destruct (sortDesc after) as [|b s] eqn:E; [now exists []|].
    rewrite insertDesc_head.
    assert (In b after) by (apply FormattingFacts.In_sortDesc; rewrite E; now left).
    rewrite Forall_forall in Ha.
    replace (percentage x <? percentage b)%Z with false
      by (symmetry; apply Z.ltb_ge; auto).
    eauto.
  - destruct IH as [rest E].
    cbn [app sortDesc fold_right]. fold (sortDesc (before ++ x :: after)).
    rewrite E, insertDesc_head.
    replace (percentage a <? percentage x)%Z with true
      by (symmetry; apply Z.ltb_lt; auto).
    eauto.
Qed.

(** Every non-empty list has a first element of largest measure. *)
Lemma first_maximum_exists {A : Type} (f : A -> Z) (l : list A) :
  l <> [] ->
  exists before x after,
    l = before ++ x :: after
    /\ Forall (fun e => (f e < f x)%Z) before
    /\ Forall (fun e => (f e <= f x)%Z) after.
Proof.
  induction l as [|a l IH]; [congruence|]. intros _.
  destruct l as [|b l].
  - exists [], a, []. repeat split; constructor.
  - destruct IH as (before & x & after & E & Hb & Ha); [discriminate|].
    destruct (f a <? f x)%Z eqn:C.
    + apply Z.ltb_lt in C. exists (a :: before), x, after.
      rewrite E. repeat split; [constructor|]; assumption.
    + apply Z.ltb_ge in C. exists [], a, (b :: l).
      repeat split; [constructor|]. rewrite E.
      apply Forall_app. split.
      * eapply Forall_impl; [|exact Hb]. cbn. intros; lia.
      * constructor; [assumption|].
        eapply Forall_impl; [|exact Ha]. cbn. intros; lia.
Qed.





(** Without that margin the two can differ: both labels are shown as 50%,
    the visualizer takes the first and the utility the larger. *)
Lemma dominant_label_disagreement :
  getDominantEmotion [("sad", 501 # 1000); ("angry", 504 # 1000)] = "angry"
  /\ dominantEmotion (formatEmotions (Some [("sad", 501 # 1000); ("angry", 504 # 1000)]))
     = "Sad".
Proof. split; reflexivity. Qed.

Lemma lower_upper_char (c : ascii) : lower_char (upper_char c) = lower_char c.
Proof. destruct c as [[] [] [] [] [] [] [] []]; reflexivity. Qed.

Lemma toLowerCase_capitalize (label : string) :
  toLowerCase (capitalize label) = toLowerCase label.
Proof.
  destruct label as [|c s]; [reflexivity|].
  unfold capitalize. cbn. now rewrite lower_upper_char.
Qed.

(** Case analysis on a label against the string literals it is compared
    with: in each branch the label is one of them, or differs from all. *)
Ltac by_label e :=
  repeat match goal with
         | |- context [String.eqb ?k e] =>
             lazymatch k with
             | e => fail
             | _ => rewrite (String.eqb_sym k e)
             end
         end;
  repeat match goal with
         | |- context [String.eqb e ?k] =>
             destruct (String.eqb_spec e k); [subst e; cbn; try reflexivity; try discriminate|]
         end.

Lemma icon_determines_color (label : string) :
  inherited (toLowerCase label) = false ->
  displayColor label
  = Val (let icon := getEmotionIcon label in
         if String.eqb icon "😊" then "#10B981"
         else if String.eqb icon "😢" then "#6B7280"
         else if String.eqb icon "😠" then "#EF4444"
         else if String.eqb icon "😲" then "#F59E0B"
         else if String.eqb icon "😨" then "#7C3AED"
         else if String.eqb icon "🤢" then "#8B5CF6"
         else "#4F46E5").
Proof.
  unfold displayColor, getEmotionIcon, get, EMOTION_COLORS, own.
  remember (toLowerCase label) as e eqn:E. clear E label. intros H.
  by_label e. now rewrite H.
Qed.

(** X6. Two labels that are drawn with the same face are drawn in the same
    color (labels that name members of [Object.prototype] apart). *)
Theorem same_icon_same_color (a b : string) :
  inherited (toLowerCase a) = false ->
  inherited (toLowerCase b) = false ->
  getEmotionIcon a = getEmotionIcon b ->
  displayColor a = displayColor b.
Proof.
  intros Ha Hb E.
  rewrite (icon_determines_color a Ha), (icon_determines_color b Hb).
  cbv zeta. now rewrite E.
Qed.

Lemma same_icon_same_color_witness :
  inherited (toLowerCase "Anger") = false
  /\ inherited (toLowerCase "ANGRY") = false
  /\ getEmotionIcon "Anger" = getEmotionIcon "ANGRY"
  /\ displayColor "Anger" = displayColor "ANGRY".
Proof.
  split; [reflexivity|]. split; [reflexivity|]. split; [reflexivity|].
  exact (same_icon_same_color "Anger" "ANGRY" eq_refl eq_refl eq_refl).
Defined.

Lemma color_agreement_label (label : string) :
  ~ In (toLowerCase label) ["joy"; "sadness"; "anger"; "surprised"] ->
  (if has emotionColors (toLowerCase label)
   then match get emotionColors (toLowerCase label) with
        | Some c => c
        | None => Val neutralColor
        end
   else Val neutralColor)
  = displayColor label.
Proof.
  unfold displayColor, has, get, EMOTION_COLORS, emotionColors, own.
  remember (toLowerCase label) as e eqn:E. clear E label. intros H.
  by_label e; try (exfalso; apply H; cbn; tauto).
  now destruct (inherited e).
Qed.

(** X7. [formatEmotionData] and the visualizer color a mapping alike unless
    it has one of the four labels joy, sadness, anger and surprised, which
    only the visualizer's color table knows. *)
Theorem formatters_agree_on_colors (emotions : Emotions) :
  Forall (fun e => ~ In (toLowerCase (fst e)) ["joy"; "sadness"; "anger"; "surprised"])
         emotions ->
  map color (formatEmotionData emotions) = map color (map formatEntry emotions).
Proof.
  induction 1 as [|[label score] l H Hl IH]; [reflexivity|].
  cbn [map formatEmotionData formatEntry color]. f_equal.
  - apply color_agreement_label, H.
  - exact IH.
Qed.

Lemma formatters_agree_on_colors_witness :
  Forall (fun e : string * Q =>
            ~ In (toLowerCase (fst e)) ["joy"; "sadness"; "anger"; "surprised"])
         [("Happy", 7 # 10); ("calm", 3 # 10)]
  /\ map color (formatEmotionData [("Happy", 7 # 10); ("calm", 3 # 10)])
     = map color (map formatEntry [("Happy", 7 # 10); ("calm", 3 # 10)]).
Proof.
  assert (H : Forall (fun e : string * Q =>
                        ~ In (toLowerCase (fst e)) ["joy"; "sadness"; "anger"; "surprised"])
                [("Happy", 7 # 10); ("calm", 3 # 10)])
    by (repeat constructor; cbn; intuition discriminate).
  split; [exact H | exact (formatters_agree_on_colors _ H)].
Defined.

(** On those four labels they differ: the utility falls back to the neutral
    color. *)
Lemma formatters_disagree_on_joy :
  map color (formatEmotionData [("joy", 1)]) = [Val "#4F46E5"]
  /\ map color (map formatEntry [("joy", 1)]) = [Val "#10B981"].
Proof. split; reflexivity. Qed.

End DisplayFacts.

(** ** More on the emotion utilities *)

Module UtilityFacts.

Import EmotionUtils.

(** X8. A technique query answers nothing, or at least three techniques:
    it answers something exactly for the four labels angry, fear, sad and
    disgust (in any letter case), and then deep breathing and positive
    reframing are always among the answers. *)
Theorem techniques_nothing_or_three (emotionName : string) :
  (~ In (toLowerCase emotionName) ["angry"; "fear"; "sad"; "disgust"]
   /\ getTechniquesForEmotion emotionName = [])
  \/ (In (toLowerCase emotionName) ["angry"; "fear"; "sad"; "disgust"]
      /\ (3 <= List.length (getTechniquesForEmotion emotionName))%nat
      /\ In deep_breathing (getTechniquesForEmotion emotionName)
      /\ In positive_reframing (getTechniquesForEmotion emotionName)).
Proof.
  destruct (in_dec string_dec (toLowerCase emotionName) ["angry"; "fear"; "sad"; "disgust"])
    as [H | H].
  - right. split; [exact H|]. unfold getTechniquesForEmotion.
    destruct H as [<- | [<- | [<- | [<- | []]]]]; cbn; intuition lia.
  - left. split; [exact H|].
    now apply TechniqueFacts.getTechniquesForEmotion_nil_iff.
Qed.

End UtilityFacts.

(** ** The mock visualizer *)

Module MockFacts.

Import JsObject EmotionUtils MockVisualizer MockDominant.

Lemma total_as_sum (l : list EmotionData) :
  total l = fold_right Z.add 0%Z (map percentage l).
Proof. unfold total. rewrite PercentageFacts.fold_left_percentage. lia. Qed.

(** The shares before rounding add up to [100 * sum / t]. *)
Lemma shares_sum (t : Q) (l : list EmotionData) :
  ~ t == 0 ->
  fold_right Qplus 0 (map (fun e => inject_Z (percentage e) / t * 100) l)
  == inject_Z (fold_right Z.add 0%Z (map percentage l)) / t * 100.
Proof.
  intros Ht. induction l as [|e l IH]; cbn [map fold_right].
  - field. exact Ht.
  - rewrite IH, inject_Z_plus. field. exact Ht.
Qed.

Lemma rounded_shares_bounds (t : Q) (l : list EmotionData) :
  fold_right Qplus 0 (map (fun e => inject_Z (percentage e) / t * 100) l)
    - inject_Z (Z.of_nat (List.length l)) * (1 # 2)
  <= inject_Z (fold_right Z.add 0%Z
                 (map (fun e => Math_round (inject_Z (percentage e) / t * 100)) l))
  /\ inject_Z (fold_right Z.add 0%Z
                 (map (fun e => Math_round (inject_Z (percentage e) / t * 100)) l))
     <= fold_right Qplus 0 (map (fun e => inject_Z (percentage e) / t * 100) l)
        + inject_Z (Z.of_nat (List.length l)) * (1 # 2).
Proof.
  induction l as [|e l [IHlo IHhi]].
  - split; unfold Qle; simpl; lia.
  - cbn [map fold_right List.length].
    rewrite Nat2Z.inj_succ, <- Z.add_1_r, !inject_Z_plus.
    change (inject_Z 1) with 1.
    pose proof (PercentageFacts.Math_round_upper (inject_Z (percentage e) / t * 100)).
    pose proof (PercentageFacts.Math_round_lower (inject_Z (percentage e) / t * 100)).
    split; lra.
Qed.

(** X10. The mock's normalization keeps labels and colors and brings the
    total to 100 up to rounding: whenever the drawn percentages have a
    non-zero total, the normalized ones add up to 100 within half a point
    per entry. *)
Theorem normalizedEmotions_total_near_100 (l : list EmotionData) :
  total l <> 0%Z ->
  map emotion (normalizedEmotions l) = map emotion l
  /\ map color (normalizedEmotions l) = map color l
  /\ (2 * Z.abs (total (normalizedEmotions l) - 100) <= Z.of_nat (List.length l))%Z.
Proof.
  intros Ht. unfold normalizedEmotions. rewrite !map_map. cbn [emotion color].
  split; [reflexivity|]. split; [reflexivity|].
  rewrite total_as_sum, map_map. cbn [percentage].
  set (t := inject_Z (total l)).
  assert (Hq : ~ t == 0).
  { unfold t. intros E. apply Ht. now apply (inject_Z_injective (total l) 0). }
  destruct (rounded_shares_bounds t l) as [Hlo Hhi].
  rewrite (shares_sum t l Hq), <- total_as_sum in Hlo, Hhi. fold t in Hlo, Hhi.
  assert (E100 : t / t * 100 == 100) by (field; exact Hq).
  rewrite E100 in Hlo, Hhi.
  set (r := fold_right Z.add 0%Z _) in *.
  set (n := Z.of_nat (List.length l)) in *.
  assert (Lo : (200 - n <= 2 * r)%Z).
  { unfold Z.sub. rewrite Zle_Qle, inject_Z_mult, inject_Z_plus, inject_Z_opp.
    change (inject_Z 200) with 200. change (inject_Z 2) with 2. lra. }
  assert (Hi : (2 * r <= 200 + n)%Z).
  { rewrite Zle_Qle, inject_Z_mult, inject_Z_plus.
    change (inject_Z 200) with 200. change (inject_Z 2) with 2. lra. }
  lia.
Qed.

Lemma normalizedEmotions_total_near_100_witness :
  total (mockEmotion 46 5 5 1 1) <> 0%Z
  /\ (2 * Z.abs (total (normalizedEmotions (mockEmotion 46 5 5 1 1)) - 100)
      <= Z.of_nat (List.length (mockEmotion 46 5 5 1 1)))%Z.
Proof.
  assert (H : total (mockEmotion 46 5 5 1 1) <> 0%Z) by discriminate.
  split; [exact H|].
  exact (proj2 (proj2 (normalizedEmotions_total_near_100 _ H))).
Defined.

(** Two shares of the same total that are far enough apart are shown with
    different percentages. *)
Lemma share_separated (x y t : Z) :
  (0 < t)%Z -> (t <= 100 * (y - x))%Z ->
  (Math_round (inject_Z x / inject_Z t * 100)
   < Math_round (inject_Z y / inject_Z t * 100))%Z.
Proof.
  intros Ht Hsep. apply DisplayFacts.Math_round_separated.
  assert (T : 0 < inject_Z t)
    by (change (inject_Z 0 < inject_Z t); rewrite <- Zlt_Qlt; exact Ht).
  assert (N : ~ inject_Z t == 0) by lra.
  setoid_replace (inject_Z x / inject_Z t * 100 + 1)
    with ((inject_Z x * 100 + inject_Z t) * / inject_Z t) by (field; exact N).
  setoid_replace (inject_Z y / inject_Z t * 100)
    with ((inject_Z y * 100) * / inject_Z t) by (field; exact N).
  apply Qmult_le_compat_r.
  - rewrite Zle_Qle in Hsep. unfold Z.sub in Hsep.
    rewrite inject_Z_mult, inject_Z_plus, inject_Z_opp in Hsep.
    change (inject_Z 100) with 100 in Hsep. lra.
  - apply Qlt_le_weak, Qinv_lt_0_compat, T.
Qed.

(** X11. Under the ranges the mock draws from, the entry it computes as
    dominant is always the Neutral one: its share beats every other share by
    more than a point, so the comparison never replaces it. *)
Theorem mock_dominant_is_neutral (n h s a u : Z) :
  draw_ok n h s a u ->
  exists p : Z,
    dominant (normalizedEmotions (mockEmotion n h s a u))
    = Some {| emotion := "Neutral"; percentage := p; color := Val "#4F46E5" |}.
Proof.
  unfold draw_ok. intros (Hn & Hh & Hs & Ha & Hu).
  unfold normalizedEmotions.
  replace (total (mockEmotion n h s a u)) with (n + h + s + a + u)%Z
    by (unfold total, mockEmotion; cbn; lia).
  set (t := (n + h + s + a + u)%Z).
  assert (Ht : (0 < t)%Z) by (unfold t; lia).
  pose proof (share_separated h n t Ht ltac:(unfold t; lia)) as Lh.
  pose proof (share_separated s n t Ht ltac:(unfold t; lia)) as Ls.
  pose proof (share_separated a n t Ht ltac:(unfold t; lia)) as La.
  pose proof (share_separated u n t Ht ltac:(unfold t; lia)) as Lu.
  apply Z.ltb_lt in Lh, Ls, La, Lu.
  eexists. unfold mockEmotion, dominant.
  cbn [map fold_left percentage emotion color].
  rewrite Lh; cbn [percentage]. rewrite Ls; cbn [percentage].
  rewrite La; cbn [percentage]. rewrite Lu. reflexivity.
Qed.

Lemma mock_dominant_is_neutral_witness :
  draw_ok 45 24 19 9 9
  /\ exists p : Z,
       dominant (normalizedEmotions (mockEmotion 45 24 19 9 9))
       = Some {| emotion := "Neutral"; percentage := p; color := Val "#4F46E5" |}.
Proof.
  assert (H : draw_ok 45 24 19 9 9) by (unfold draw_ok; lia).
  split; [exact H | exact (mock_dominant_is_neutral 45 24 19 9 9 H)].
Defined.

End MockFacts.

(** ** More on the therapy session *)

Module SessionInvariants.

Import EmotionUtils Api Effects TherapySession.

Section WithServer.

Variable server : Request -> option Reply.
Variable sessionId : option string.

Lemma app_one_neq {A : Type} (l : list A) (x : A) : l ++ [x] <> l.
Proof.
  intros E. apply (f_equal (@List.length A)) in E.
  rewrite length_app in E. cbn in E. lia.
Qed.

(** X12. The send button and the send handler agree: [sendMessage] leaves
    the state and the request log untouched exactly when the button is
    disabled (nothing to send, or a send in flight). *)
Theorem sendMessage_noop_iff_disabled
  (now1 now2 : Z) (st : State) (log : list Request) :
  run (sendMessage server sessionId now1 now2) st log = (st, log)
  <-> disabled st = true.
Proof.
  split.
  - intros E. destruct (disabled st) eqn:D; [reflexivity|].
    destruct (SessionFacts.sendMessage_completed server sessionId now1 now2 st log D)
      as (req & reply & _ & L & _).
    rewrite E in L. cbn in L. symmetry in L. now apply app_one_neq in L.
  - apply SessionFacts.sendMessage_disabled.
Qed.

(** The whole effect of an accepted send. *)
Lemma sendMessage_effect (now1 now2 : Z) (st : State) (log : list Request) :
  disabled st = false ->
  let req :=
    match audioBlob st with
    | Some blob =>
        AnalyzeAudio blob (whenTruthy (trim (inputText st)))
          (match sessionId with Some s => whenTruthy s | None => None end)
    | None =>
        AnalyzeText (trim (inputText st))
          (match sessionId with Some s => whenTruthy s | None => None end)
    end in
  let st' := fst (run (sendMessage server sessionId now1 now2) st log) in
  snd (run (sendMessage server sessionId now1 now2) st log) = log ++ [req]
  /\ loading st' = false
  /\ inputText st' = ""
  /\ currentEmotions st' = currentEmotions st
  /\ isAnalyzingEmotions st' = isAnalyzingEmotions st
  /\ pendingAnalysis st' = pendingAnalysis st
  /\ audioBlob st' = match server req with Some _ => None | None => audioBlob st end.
Proof.
  unfold disabled. intros D. apply orb_false_iff in D as [L G].
  SessionFacts.run_handler. rewrite G, L. cbn [orb fst snd].
  destruct (audioBlob st) as [blob|]; cbn [fst snd];
    match goal with
    | |- context [server ?r] => destruct (server r)
    end; cbn; repeat split.
Qed.

(** X14. An accepted send issues exactly one request.  With a recording
    attached it goes to the audio endpoint and carries the trimmed text only
    if there is some; without one it goes to the text endpoint with the
    trimmed text, which is then not empty.  The session id goes along only
    if it is a non-empty string. *)
Theorem sendMessage_request_shape
  (now1 now2 : Z) (st : State) (log : list Request) :
  disabled st = false ->
  (forall blob, audioBlob st = Some blob ->
     snd (run (sendMessage server sessionId now1 now2) st log)
     = log ++ [AnalyzeAudio blob
                 (if blank (inputText st) then None else Some (trim (inputText st)))
                 (match sessionId with
                  | Some "" => None
                  | other => other
                  end)])
  /\ (audioBlob st = None ->
      blank (inputText st) = false
      /\ truthy (trim (inputText st)) = true
      /\ snd (run (sendMessage server sessionId now1 now2) st log)
         = log ++ [AnalyzeText (trim (inputText st))
                     (match sessionId with
                      | Some "" => None
                      | other => other
                      end)]).
Proof.
  intros D. destruct (sendMessage_effect now1 now2 st log D) as (L & _).
  assert (S : match sessionId with Some s => whenTruthy s | None => None end
              = match sessionId with Some "" => None | other => other end).
  { destruct sessionId as [[|c s]|]; reflexivity. }
  split.
  - intros blob A. rewrite L, A, S. unfold whenTruthy.
    rewrite truthy_trim_blank. now destruct (blank (inputText st)).
  - intros A. unfold disabled in D. rewrite A in D. cbn in D.
    apply orb_false_iff in D as [_ D]. rewrite andb_true_r in D.
    apply negb_false_iff in D.
    split; [| split; [exact D|]].
    + rewrite truthy_trim_blank in D. now apply negb_true_iff in D.
    + now rewrite L, A, S.
Qed.

End WithServer.

Lemma sendMessage_request_shape_witness :
  disabled (fst (run (handleTextChange (NBSP ++ "I feel sad" ++ IDEOGRAPHIC_SPACE)%string) initialState [])) = false
  /\ audioBlob (fst (run (handleTextChange (NBSP ++ "I feel sad" ++ IDEOGRAPHIC_SPACE)%string) initialState [])) = None
  /\ snd (run (sendMessage (fun _ => None) (Some "") 1%Z 2%Z)
            (fst (run (handleTextChange (NBSP ++ "I feel sad" ++ IDEOGRAPHIC_SPACE)%string) initialState [])) [])
     = [AnalyzeText "I feel sad" None].
Proof.
  split; [reflexivity|]. split; [reflexivity|].
  exact (proj2 (proj2 (proj2 (sendMessage_request_shape (fun _ => None) (Some "") 1%Z 2%Z
                          (fst (run (handleTextChange (NBSP ++ "I feel sad" ++ IDEOGRAPHIC_SPACE)%string) initialState [])) []
                          eq_refl) eq_refl))).
Defined.

Section Traces.

Variable server : Request -> option Reply.
Variable sessionId : option string.

(** What every request the component issues satisfies: a text, where there
    is one, is not empty, and neither is a session id. *)
Abbreviation well_formed :=
  (fun req : Request =>
     match req with
     | AnalyzeText text session_id => truthy text = true /\ session_id <> Some ""
     | AnalyzeAudio _ text session_id => text <> Some "" /\ session_id <> Some ""
     | AnalyzeTextEmotions text => truthy text = true
     end).

Lemma whenTruthy_not_empty (v : string) : whenTruthy v <> Some "".
Proof. destruct v; cbn; congruence. Qed.

Lemma analyzeEmotions_effect (text : string) (st : State) (log : list Request) :
  exists added,
    snd (run (analyzeEmotions server text) st log) = log ++ added
    /\ Forall well_formed added
    /\ (currentEmotions st <> [] ->
        currentEmotions (fst (run (analyzeEmotions server text) st log)) <> []).
Proof.
  SessionFacts.run_handler. destruct (truthy (trim text)) eqn:T; cbn [negb fst snd].
  - exists [AnalyzeTextEmotions (trim text)]. split; [| split].
    + now destruct (server _) as [r|]; [destruct (detected_emotions r)|].
    + repeat constructor. exact T.
    + intros _. destruct (server _) as [r|]; cbn; [|discriminate].
      destruct (detected_emotions r) as [[|e d]|]; cbn; discriminate.
  - exists []. rewrite app_nil_r. repeat split; [constructor | discriminate].
Qed.

Lemma handle_effect (ev : Event) (st : State) (log : list Request) :
  exists added,
    snd (run (handle server sessionId ev) st log) = log ++ added
    /\ Forall well_formed added
    /\ (currentEmotions st <> [] ->
        currentEmotions (fst (run (handle server sessionId ev) st log)) <> []).
Proof.
  destruct ev as [text | | blob | now1 now2]; cbn [handle].
  - exists []. rewrite app_nil_r. SessionFacts.run_handler.
    destruct (truthy (trim text)); cbn; repeat split; auto; discriminate.
  - unfold debounceFires, run, bind, snapshot. cbn [fst snd].
    destruct (pendingAnalysis st) as [text|] eqn:P.
    + unfold setPendingAnalysis, update. cbn [fst snd].
      match goal with
      | |- context [analyzeEmotions server text (?s, log)] =>
          destruct (analyzeEmotions_effect text s log) as (added & L & W & N)
      end.
      exists added. unfold run in L, N. split; [exact L|]. split; [exact W|].
      intros H. apply N. exact H.
    + exists []. rewrite app_nil_r. cbn. repeat split; auto.
  - exists []. rewrite app_nil_r. cbn. repeat split; auto.
  - destruct (disabled st) eqn:D.
    + rewrite SessionFacts.sendMessage_disabled by exact D.
      exists []. rewrite app_nil_r. cbn. repeat split; auto.
    + destruct (sendMessage_effect server sessionId now1 now2 st log D)
        as (L & _ & _ & C & _).
      eexists. split; [exact L|]. split; [| now rewrite C].
      repeat constructor.
      unfold disabled in D. apply orb_false_iff in D as [_ D].
      destruct (audioBlob st) as [blob|]; cbn in *.
      * split; [apply whenTruthy_not_empty|].
        destruct sessionId; [apply whenTruthy_not_empty | discriminate].
      * rewrite andb_true_r in D. apply negb_false_iff in D.
        split; [exact D|].
        destruct sessionId; [apply whenTruthy_not_empty | discriminate].
Qed.

(** X15. Whatever the user does, in whatever order, the component never
    sends an empty text or an empty session id: every request issued over a
    sequence of events carries a non-empty text where it carries one, and a
    non-empty session id where it carries one. *)
Theorem requests_well_formed (evs : list Event) (st : State) (log : list Request) :
  exists added : list Request,
    snd (handleAll server sessionId evs (st, log)) = log ++ added
    /\ Forall well_formed added.
Proof.
  revert st log. induction evs as [|ev evs IH]; intros st log.
  - exists []. cbn. rewrite app_nil_r. split; [reflexivity | constructor].
  - cbn [handleAll fst snd].
    destruct (handle_effect ev st log) as (added & L & W & _).
    destruct (run (handle server sessionId ev) st log) as [st1 log1].
    cbn [snd] in L. subst log1.
    destruct (IH st1 (log ++ added)) as (more & L' & W').
    exists (added ++ more). rewrite L', app_assoc. split; [reflexivity|].
    apply Forall_app. auto.
Qed.

(** X16. The emotion panel of the session is never given an empty mapping:
    if the current emotions are not empty, they are not empty after any
    sequence of events, whatever the analysis endpoint answers. *)
Theorem currentEmotions_never_empty (evs : list Event) (st : State) (log : list Request) :
  currentEmotions st <> [] ->
  currentEmotions (fst (handleAll server sessionId evs (st, log))) <> [].
Proof.
  revert st log. induction evs as [|ev evs IH]; intros st log H; [exact H|].
  cbn [handleAll fst snd].
  destruct (handle_effect ev st log) as (added & _ & _ & N).
  destruct (run (handle server sessionId ev) st log) as [st1 log1].
  apply IH, N, H.
Qed.

Lemma handleTextChange_nonblank (text : string) (st : State) (log : list Request) :
  blank text = false ->
  run (handleTextChange text) st log
  = ({| messages := messages st; inputText := text; audioBlob := audioBlob st;
        loading := loading st; currentEmotions := currentEmotions st;
        isAnalyzingEmotions := true; pendingAnalysis := Some text |}, log).
Proof.
  intros B. SessionFacts.run_handler. now rewrite truthy_trim_blank, B.
Qed.

Lemma handleTextChange_blank (text : string) (st : State) (log : list Request) :
  blank text = true ->
  run (handleTextChange text) st log
  = ({| messages := messages st; inputText := text; audioBlob := audioBlob st;
        loading := loading st; currentEmotions := defaultDistribution;
        isAnalyzingEmotions := isAnalyzingEmotions st;
        pendingAnalysis := pendingAnalysis st |}, log).
Proof.
  intros B. SessionFacts.run_handler. now rewrite truthy_trim_blank, B.
Qed.

Lemma debounceFires_pending (text : string) (st : State) (log : list Request) :
  pendingAnalysis st = Some text ->
  run (debounceFires server) st log
  = run (analyzeEmotions server text)
      {| messages := messages st; inputText := inputText st; audioBlob := audioBlob st;
         loading := loading st; currentEmotions := currentEmotions st;
         isAnalyzingEmotions := isAnalyzingEmotions st; pendingAnalysis := None |}
      log.
Proof.
  intros P. unfold debounceFires, run, bind, snapshot. cbn [fst snd].
  now rewrite P.
Qed.

Lemma analyzeEmotions_frame (text : string) (st : State) (log : list Request) :
  inputText (fst (run (analyzeEmotions server text) st log)) = inputText st
  /\ pendingAnalysis (fst (run (analyzeEmotions server text) st log)) = pendingAnalysis st
  /\ (blank text = false ->
      snd (run (analyzeEmotions server text) st log)
      = log ++ [AnalyzeTextEmotions (trim text)]).
Proof.
  SessionFacts.run_handler. rewrite truthy_trim_blank.
  destruct (blank text); cbn [negb fst snd].
  - repeat split. discriminate.
  - destruct (server _) as [r|]; cbn [fst snd];
      [destruct (detected_emotions r)|]; repeat split.
Qed.

(** X17. The scheduled analysis is debounced by text changes but not
    cancelled by clearing the box.  After two changes to non-blank texts the
    timer issues one request, for the later text; after a change to a
    non-blank text followed by a change to a blank one, it still issues the
    request for the earlier text. *)
Theorem debounced_analysis (text1 text2 : string) (st : State) (log : list Request) :
  blank text1 = false ->
  snd (handleAll server sessionId [TextChanged text1; TextChanged text2; TimerFired]
         (st, log))
  = log ++ [AnalyzeTextEmotions (trim (if blank text2 then text1 else text2))]
  /\ inputText (fst (handleAll server sessionId
                       [TextChanged text1; TextChanged text2; TimerFired] (st, log)))
     = text2
  /\ pendingAnalysis (fst (handleAll server sessionId
                             [TextChanged text1; TextChanged text2; TimerFired] (st, log)))
     = None.
Proof.
  intros B1. cbn [handleAll handle fst snd].
  rewrite (handleTextChange_nonblank text1 st log B1). cbn [fst snd].
  destruct (blank text2) eqn:B2.
  - rewrite handleTextChange_blank by exact B2. cbn [fst snd].
    rewrite (debounceFires_pending text1) by reflexivity.
    match goal with
    | |- context [run (analyzeEmotions server text1) ?s log] =>
        destruct (analyzeEmotions_frame text1 s log) as (I & P & L)
    end.
    rewrite I, P, (L B1). repeat split.
  - rewrite handleTextChange_nonblank by exact B2. cbn [fst snd].
    rewrite (debounceFires_pending text2) by reflexivity.
    match goal with
    | |- context [run (analyzeEmotions server text2) ?s log] =>
        destruct (analyzeEmotions_frame text2 s log) as (I & P & L)
    end.
    rewrite I, P, (L B2). repeat split.
Qed.

End Traces.

Lemma currentEmotions_never_empty_witness :
  currentEmotions initialState <> []
  /\ currentEmotions
       (fst (handleAll (fun _ => Some {| response_text := "ok"; detected_emotions := Some [] |})
               None [TextChanged "so tired"; TimerFired] (initialState, [])))
     <> [].
Proof.
  assert (H : currentEmotions initialState <> []) by discriminate.
  split; [exact H|].
  exact (currentEmotions_never_empty _ None [TextChanged "so tired"; TimerFired]
           initialState [] H).
Defined.

Lemma debounced_analysis_witness :
  blank "so tired" = false
  /\ snd (handleAll (fun _ => None) None
            [TextChanged "so tired"; TextChanged NBSP; TimerFired] (initialState, []))
     = [AnalyzeTextEmotions "so tired"].
Proof.
  split; [reflexivity|].
  exact (proj1 (debounced_analysis (fun _ => None) None "so tired" NBSP initialState []
                  eq_refl)).
Defined.

End SessionInvariants.

(** ** The emotion badges of a message *)

Module BadgeFacts.

Import EmotionUtils MessageBadges.

Lemma In_insertByScore (a x : string * Q) (l : Emotions) :
  In x (insertByScore a l) <-> x = a \/ In x l.
Proof.
  induction l as [|b l IH]; simpl.
  - intuition.
  - destruct (gt (snd b) (snd a)); simpl; rewrite ?IH; intuition.
Qed.

Lemma In_sortByScore (x : string * Q) (l : Emotions) :
  In x (sortByScore l) <-> In x l.
Proof.
  induction l as [|a l IH]; simpl.
  - reflexivity.
  - rewrite In_insertByScore, IH. intuition.
Qed.








End BadgeFacts.

(** ** The session page *)

Module SessionPageFacts.

Import Api Effects TherapySession SessionPage.

Lemma hexRun_length (n : nat) :
  forall s r, hexRun n s = Some r -> String.length s = (n + String.length r)%nat.
Proof.
  induction n as [|n IH]; intros s r H; cbn in H.
  - now inversion H.
  - destruct s as [|c s]; [discriminate|].
    destruct (isHex c); [|discriminate].
    cbn. now rewrite (IH s r H).
Qed.

Lemma dash_length (s r : string) :
  dash s = Some r -> String.length s = S (String.length r).
Proof.
  destruct s as [|c s]; [discriminate|].
  destruct c as [[] [] [] [] [] [] [] []]; cbn; try discriminate.
  now intros [= ->].
Qed.

Lemma isHex_upper (c : ascii) : isHex (upper_char c) = isHex c.
Proof. destruct c as [[] [] [] [] [] [] [] []]; reflexivity. Qed.

Lemma isHex_lower (c : ascii) : isHex (lower_char c) = isHex c.
Proof. destruct c as [[] [] [] [] [] [] [] []]; reflexivity. Qed.

Lemma hexRun_upper (n : nat) :
  forall s, hexRun n (toUpperCase s) = option_map toUpperCase (hexRun n s).
Proof.
  induction n as [|n IH]; intros s; [reflexivity|].
  destruct s as [|c s]; [reflexivity|].
  cbn. rewrite isHex_upper. destruct (isHex c); [apply IH | reflexivity].
Qed.

Lemma hexRun_lower (n : nat) :
  forall s, hexRun n (toLowerCase s) = option_map toLowerCase (hexRun n s).
Proof.
  induction n as [|n IH]; intros s; [reflexivity|].
  destruct s as [|c s]; [reflexivity|].
  cbn. rewrite isHex_lower. destruct (isHex c); [apply IH | reflexivity].
Qed.

Lemma dash_upper (s : string) : dash (toUpperCase s) = option_map toUpperCase (dash s).
Proof.
  destruct s as [|c s]; [reflexivity|].
  destruct c as [[] [] [] [] [] [] [] []]; reflexivity.
Qed.

Lemma dash_lower (s : string) : dash (toLowerCase s) = option_map toLowerCase (dash s).
Proof.
  destruct s as [|c s]; [reflexivity|].
  destruct c as [[] [] [] [] [] [] [] []]; reflexivity.
Qed.

Lemma andThen_map (f : string -> string) (p : string -> option string)
  (r : option string) :
  (forall s, p (f s) = option_map f (p s)) ->
  andThen (option_map f r) p = option_map f (andThen r p).
Proof. intros H. destruct r; cbn; auto. Qed.

Lemma uuid_insensitive (f : string -> string) :
  (forall n s, hexRun n (f s) = option_map f (hexRun n s)) ->
  (forall s, dash (f s) = option_map f (dash s)) ->
  (forall s, f s = "" <-> s = "") ->
  forall s, uuidRegex_test (f s) = uuidRegex_test s.
Proof.
  intros Hh Hd He s. unfold uuidRegex_test.
  rewrite Hh.
  repeat (rewrite andThen_map by (intros; first [apply Hh | apply Hd])).
  destruct (andThen _ (hexRun 12)) as [r|]; [|reflexivity].
  cbn. destruct r as [|c r]; [now rewrite (proj2 (He "") eq_refl)|].
  destruct (f (String c r)) eqn:E; [|reflexivity].
  apply (proj1 (He _)) in E. discriminate.
Qed.

(** X19. A session id the page accepts has exactly 36 characters, and the
    check ignores letter case: an id is accepted if and only if its
    upper-case form is, and if and only if its lower-case form is. *)
Theorem uuid_check (sessionId : string) :
  (uuidRegex_test sessionId = true -> String.length sessionId = 36%nat)
  /\ uuidRegex_test (toUpperCase sessionId) = uuidRegex_test sessionId
  /\ uuidRegex_test (toLowerCase sessionId) = uuidRegex_test sessionId.
Proof.
  split; [| split].
  - unfold uuidRegex_test.
    destruct (hexRun 8 sessionId) as [r1|] eqn:E1; cbn [andThen]; [|discriminate].
    destruct (dash r1) as [r2|] eqn:E2; cbn [andThen]; [|discriminate].
    destruct (hexRun 4 r2) as [r3|] eqn:E3; cbn [andThen]; [|discriminate].
    destruct (dash r3) as [r4|] eqn:E4; cbn [andThen]; [|discriminate].
    destruct (hexRun 4 r4) as [r5|] eqn:E5; cbn [andThen]; [|discriminate].
    destruct (dash r5) as [r6|] eqn:E6; cbn [andThen]; [|discriminate].
    destruct (hexRun 4 r6) as [r7|] eqn:E7; cbn [andThen]; [|discriminate].
    destruct (dash r7) as [r8|] eqn:E8; cbn [andThen]; [|discriminate].
    destruct (hexRun 12 r8) as [[|c r9]|] eqn:E9; try discriminate. intros _.
    apply hexRun_length in E1, E3, E5, E7, E9.
    apply dash_length in E2, E4, E6, E8. cbn in E9. lia.
  - apply uuid_insensitive; [intros; apply hexRun_upper | apply dash_upper|].
    intros s. destruct s; cbn; split; congruence.
  - apply uuid_insensitive; [intros; apply hexRun_lower | apply dash_lower|].
    intros s. destruct s; cbn; split; congruence.
Qed.

Lemma uuid_check_witness :
  uuidRegex_test "3F2504E0-4f89-11d3-9A0C-0305e82c3301" = true
  /\ String.length "3F2504E0-4f89-11d3-9A0C-0305e82c3301" = 36%nat.
Proof.
  split; [reflexivity|].
  exact (proj1 (uuid_check "3F2504E0-4f89-11d3-9A0C-0305e82c3301") eq_refl).
Defined.

(** X20. When the page accepts the id in the URL it does not redirect, and
    every request an accepted send of the session issues carries that very
    id. *)
Theorem accepted_session_id_is_sent
  (server : Request -> option Reply) (sessionId : string)
  (now1 now2 : Z) (st : State) (log : list Request) :
  uuidRegex_test sessionId = true ->
  disabled st = false ->
  redirectsHome sessionId = false
  /\ exists req : Request,
       snd (run (sendMessage server (Some sessionId) now1 now2) st log) = log ++ [req]
       /\ match req with
          | AnalyzeText _ session_id => session_id = Some sessionId
          | AnalyzeAudio _ _ session_id => session_id = Some sessionId
          | AnalyzeTextEmotions _ => False
          end.
Proof.
  intros U D. split; [unfold redirectsHome; now rewrite U|].
  assert (T : whenTruthy sessionId = Some sessionId).
  { destruct sessionId; [discriminate U | reflexivity]. }
  destruct (SessionInvariants.sendMessage_effect server (Some sessionId) now1 now2 st log D)
    as (L & _).
  eexists. split; [exact L|]. destruct (audioBlob st); exact T.
Qed.

Lemma accepted_session_id_is_sent_witness :
  uuidRegex_test "3f2504e0-4f89-11d3-9a0c-0305e82c3301" = true
  /\ disabled (fst (run (handleTextChange "hello") initialState [])) = false
  /\ redirectsHome "3f2504e0-4f89-11d3-9a0c-0305e82c3301" = false
  /\ exists req : Request,
       snd (run (sendMessage (fun _ => None) (Some "3f2504e0-4f89-11d3-9a0c-0305e82c3301")
                   1%Z 2%Z)
              (fst (run (handleTextChange "hello") initialState [])) [])
       = [] ++ [req]
       /\ match req with
          | AnalyzeText _ session_id =>
              session_id = Some "3f2504e0-4f89-11d3-9a0c-0305e82c3301"
          | AnalyzeAudio _ _ session_id =>
              session_id = Some "3f2504e0-4f89-11d3-9a0c-0305e82c3301"
          | AnalyzeTextEmotions _ => False
          end.
Proof.
  split; [reflexivity|]. split; [reflexivity|].
  exact (accepted_session_id_is_sent (fun _ => None)
           "3f2504e0-4f89-11d3-9a0c-0305e82c3301" 1%Z 2%Z
           (fst (run (handleTextChange "hello") initialState [])) [] eq_refl eq_refl).
Defined.

End SessionPageFacts.

(** ** The settings page *)

Module SettingsFacts.

Import Api SettingsPage.

(** X21. Testing the LLM with a blank message does nothing.  Otherwise the
    message is posted once, as typed (it is not trimmed), testing is off
    again afterwards whatever happened, the configuration is untouched, and
    a response is never left next to an error: either there is no error and
    the response is the body the server sent (none, when that body is
    [null]), or there is an error and no (stale) response. *)
Theorem handleTestLLM_outcome (f : Fetched (option Reply)) (st : State) :
  (blank (testMessage st) = true -> handleTestLLM f st = (st, []))
  /\ (blank (testMessage st) = false ->
      snd (handleTestLLM f st) = [testMessage st]
      /\ isTesting (fst (handleTestLLM f st)) = false
      /\ config (fst (handleTestLLM f st)) = config st
      /\ testMessage (fst (handleTestLLM f st)) = testMessage st
      /\ ((exists data,
              settle "Error testing LLM: " f = inl data
              /\ testResponse (fst (handleTestLLM f st)) = data
              /\ error (fst (handleTestLLM f st)) = None)
          \/ (exists message,
                 settle "Error testing LLM: " f = inr message
                 /\ testResponse (fst (handleTestLLM f st)) = None
                 /\ error (fst (handleTestLLM f st))
                    = Some ("Failed to test LLM: " ++ message)%string))).
Proof.
  unfold handleTestLLM. rewrite truthy_trim_blank. split; intros B; rewrite B; cbn [negb].
  - reflexivity.
  - destruct (settle "Error testing LLM: " f) as [data | message]; cbn;
      repeat split; eauto.
Qed.

(** A message padded with a no-break space is posted with it; a [null]
    body leaves neither a response nor an error. *)
Lemma handleTestLLM_outcome_witness :
  blank (testMessage {| config := None; isLoading := false; error := None;
                        testMessage := (NBSP ++ "hi")%string; testResponse := None;
                        isTesting := false |}) = false
  /\ handleTestLLM (Answered true "OK" (inl None))
       {| config := None; isLoading := false; error := None;
          testMessage := (NBSP ++ "hi")%string; testResponse := None;
          isTesting := false |}
     = ({| config := None; isLoading := false; error := None;
           testMessage := (NBSP ++ "hi")%string; testResponse := None;
           isTesting := false |},
        [(NBSP ++ "hi")%string])
  /\ snd (handleTestLLM (Answered false "Bad Gateway" (inr "no body"))
            {| config := None; isLoading := false; error := None;
               testMessage := (NBSP ++ "hi")%string; testResponse := None;
               isTesting := false |})
     = [(NBSP ++ "hi")%string].
Proof.
  split; [reflexivity|]. split; [reflexivity|].
  exact (proj1 (proj2 (handleTestLLM_outcome (Answered false "Bad Gateway" (inr "no body"))
                         {| config := None; isLoading := false; error := None;
                            testMessage := (NBSP ++ "hi")%string; testResponse := None;
                            isTesting := false |}) eq_refl)).
Defined.

(** X22. The page has one error slot for both handlers.  A failed test
    therefore replaces the settings cards, test form included, by the error
    card; the cards come back once the configuration is fetched
    successfully, with the typed message still in place, while a failed
    fetch keeps the error card and the configuration loaded before. *)
Theorem failed_test_hides_settings
  (f : Fetched (option Reply)) (st : State) (message : string) :
  isLoading st = false ->
  blank (testMessage st) = false ->
  settle "Error testing LLM: " f = inr message ->
  view (fst (handleTestLLM f st)) = ErrorCard ("Failed to test LLM: " ++ message)
  /\ (forall (statusText : string) (data : option LLMConfig),
         view (fetchLLMConfig (Answered true statusText (inl data))
                 (fst (handleTestLLM f st)))
         = SettingsCards
         /\ testMessage (fetchLLMConfig (Answered true statusText (inl data))
                           (fst (handleTestLLM f st)))
            = testMessage st)
  /\ (forall reason : string,
         view (fetchLLMConfig (Rejected reason) (fst (handleTestLLM f st)))
         = ErrorCard ("Failed to load LLM configuration: " ++ reason)
         /\ config (fetchLLMConfig (Rejected reason) (fst (handleTestLLM f st)))
            = config st).
Proof.
  intros L B S. unfold handleTestLLM. rewrite truthy_trim_blank, B, S. cbn [negb fst].
  unfold view, fetchLLMConfig. cbn. rewrite L. repeat split.
Qed.

Lemma failed_test_hides_settings_witness :
  isLoading {| config := None; isLoading := false; error := None;
               testMessage := "hi"; testResponse := None; isTesting := false |} = false
  /\ blank (testMessage {| config := None; isLoading := false; error := None;
                           testMessage := "hi"; testResponse := None;
                           isTesting := false |}) = false
  /\ settle "Error testing LLM: " (Answered false "Bad Gateway" (inr "no body" : option Reply + string))
     = inr "Error testing LLM: Bad Gateway"
  /\ view (fst (handleTestLLM (Answered false "Bad Gateway" (inr "no body"))
                  {| config := None; isLoading := false; error := None;
                     testMessage := "hi"; testResponse := None; isTesting := false |}))
     = ErrorCard "Failed to test LLM: Error testing LLM: Bad Gateway".
Proof.
  split; [reflexivity|]. split; [reflexivity|]. split; [reflexivity|].
  exact (proj1 (failed_test_hides_settings (Answered false "Bad Gateway" (inr "no body"))
                  {| config := None; isLoading := false; error := None;
                     testMessage := "hi"; testResponse := None; isTesting := false |}
                  "Error testing LLM: Bad Gateway" eq_refl eq_refl eq_refl)).
Defined.

End SettingsFacts.

(** ** The forms on the wire *)

Module FormFacts.

Import Api ApiClient.

Lemma appendIf_spec (key : string) (v : option string) (form : FormData) :
  appendIf key v form
  = match v with
    | Some (String c s) => form ++ [(key, Text (String c s))]
    | _ => form
    end.
Proof. now destruct v as [[|c s]|]. Qed.

(** X23. The upload forms never repeat a field and never carry an optional
    string that is empty: text, user id and session id are appended only
    when they are non-empty strings.  [analyzeMultimodal] alone always sends
    its text, empty or not. *)
Theorem upload_forms_well_formed
  (blob : Blob) (image audio : option Blob) (required : string)
  (text userId sessionId : option string) :
  let forms :=
    [ analyzeAudio blob text userId sessionId;
      analyzeImage blob text userId sessionId;
      analyzeMultimodal required image audio userId sessionId;
      sessionAudioForm blob text sessionId ] in
  Forall (fun form => NoDup (map fst form)) forms
  /\ Forall (fun form =>
               forall key, In key ["user_id"; "session_id"] ->
                           field form key <> Some (Text "")) forms
  /\ field (analyzeAudio blob text userId sessionId) "text" <> Some (Text "")
  /\ field (analyzeImage blob text userId sessionId) "text" <> Some (Text "")
  /\ field (sessionAudioForm blob text sessionId) "text" <> Some (Text "")
  /\ field (analyzeMultimodal required image audio userId sessionId) "text"
     = Some (Text required).
Proof.
  cbv zeta. unfold analyzeAudio, analyzeImage, analyzeMultimodal, sessionAudioForm, field.
  rewrite !appendIf_spec.
  destruct text as [[|c1 s1]|], userId as [[|c2 s2]|], sessionId as [[|c3 s3]|],
    image as [i|], audio as [a|];
    cbn [appendFileIf app map fst JsObject.own String.eqb Ascii.eqb Bool.eqb];
    (split; [| split; [| repeat split; try discriminate]]);
    try (repeat constructor; cbn; intuition discriminate);
    repeat constructor; intros key [<- | [<- | []]]; cbn; discriminate.
Qed.

(** X24. The two ways of uploading a recording do not agree on the form:
    the API client names the file field audio, the therapy session names it
    audio_file (and the file names differ too), so no form built by one is a
    form the other can build. *)
Theorem audio_forms_differ
  (blob blob' : Blob) (text userId sessionId text' sessionId' : option string) :
  field (analyzeAudio blob text userId sessionId) "audio"
  = Some (File blob "audio-recording.wav" "audio/wav")
  /\ field (analyzeAudio blob text userId sessionId) "audio_file" = None
  /\ field (sessionAudioForm blob' text' sessionId') "audio_file"
     = Some (File blob' "recording.wav" "audio/wav")
  /\ field (sessionAudioForm blob' text' sessionId') "audio" = None
  /\ analyzeAudio blob text userId sessionId <> sessionAudioForm blob' text' sessionId'.
Proof.
  assert (A : field (analyzeAudio blob text userId sessionId) "audio_file" = None).
  { unfold analyzeAudio, field. rewrite !appendIf_spec.
    destruct text as [[|c1 s1]|], userId as [[|c2 s2]|], sessionId as [[|c3 s3]|];
      reflexivity. }
  assert (B : field (sessionAudioForm blob' text' sessionId') "audio_file"
              = Some (File blob' "recording.wav" "audio/wav")).
  { unfold sessionAudioForm, field. rewrite !appendIf_spec.
    destruct text' as [[|c1 s1]|], sessionId' as [[|c3 s3]|]; reflexivity. }
  repeat split; try assumption.
  - unfold analyzeAudio, field. rewrite !appendIf_spec.
    destruct text as [[|c1 s1]|], userId as [[|c2 s2]|], sessionId as [[|c3 s3]|];
      reflexivity.
  - unfold sessionAudioForm, field. rewrite !appendIf_spec.
    destruct text' as [[|c1 s1]|], sessionId' as [[|c3 s3]|]; reflexivity.
  - intros E. rewrite E in A. congruence.
Qed.

End FormFacts.

(** ** The two analysis handlers side by side *)

Module AnalysisFacts.

Import EmotionUtils EmotionVisualizer Api Effects.

(** X25. On the same text and the same answers, the home page and the
    therapy session store the same emotions, except when the endpoint
    answers without a mapping or with an empty one: the session then
    substitutes the default distribution, respectively {neutral: 1}, while
    the home page stores what it got and its visualizer shows the built-in
    default list. *)
Theorem analysis_handlers_compared
  (server : Request -> option Reply) (text : string)
  (home : HomePage.State) (session : TherapySession.State) (log : list Request) :
  let stored := HomePage.emotions
                  (fst (run (HomePage.analyzeEmotions server text) home log)) in
  let current := TherapySession.currentEmotions
                   (fst (run (TherapySession.analyzeEmotions server text) session log)) in
  snd (run (HomePage.analyzeEmotions server text) home log)
  = snd (run (TherapySession.analyzeEmotions server text) session log)
  /\ (stored = Some current
      \/ (stored = None /\ current = defaultDistribution
          /\ formatEmotions stored = defaultEmotions)
      \/ (stored = Some [] /\ current = [("neutral", 1)]
          /\ formatEmotions stored = defaultEmotions)).
Proof.
  cbv zeta. SessionFacts.run_handler.
  destruct (truthy (trim text)); cbn [negb fst snd].
  - destruct (server _) as [r|]; cbn [fst snd].
    + destruct (detected_emotions r) as [[|e d]|]; cbn; split; auto.
    + cbn. auto.
  - cbn. auto.
Qed.

Lemma Math_round_percentage (score : Q) :
  0 <= score <= 1 -> (0 <= Math_round (score * 100) <= 100)%Z.
Proof.
  intros [H0 H1].
  assert (M0 : Math_round 0 = 0%Z) by reflexivity.
  assert (M1 : Math_round 100 = 100%Z) by reflexivity.
  assert (L : 0 <= score * 100) by lra.
  assert (U : score * 100 <= 100) by lra.
  apply DisplayFacts.Math_round_monotone in L, U.
  rewrite M0 in L. rewrite M1 in U. lia.
Qed.

(** X26. Scores between 0 and 1 are always shown as percentages between 0
    and 100, by [formatEmotionData], by the visualizer and by the message
    badges, so a bar of that width is never out of range. *)
Theorem percentages_in_range (emotions : Emotions) :
  Forall (fun e => 0 <= snd e <= 1) emotions ->
  Forall (fun d => (0 <= percentage d <= 100)%Z) (formatEmotionData emotions)
  /\ Forall (fun d => (0 <= percentage d <= 100)%Z) (formatEmotions (Some emotions))
  /\ Forall (fun b => (0 <= snd b <= 100)%Z) (MessageBadges.badges emotions).
Proof.
  intros H. rewrite Forall_forall in H. split; [| split]; apply Forall_forall.
  - intros d Hd. unfold formatEmotionData in Hd.
    apply in_map_iff in Hd as [[k v] [<- Hin]]. cbn [percentage].
    apply Math_round_percentage, (H _ Hin).
  - intros d Hd. unfold Emotions in *. destruct emotions as [|x l].
    + cbn in Hd. intuition (subst; cbn; lia).
    + assert (Hd' : In d (firstn 5 (sortDesc (map formatEntry (x :: l)))))
        by (rewrite <- (proj1 (FormattingFacts.formatEmotions_nonempty_input x l)); exact Hd).
      apply FormattingFacts.In_firstn, FormattingFacts.In_sortDesc, in_map_iff in Hd'
        as [[k v] [<- Hin]].
      cbn [formatEntry percentage]. apply Math_round_percentage, (H _ Hin).
  - intros b Hb. unfold MessageBadges.badges in Hb.
    apply in_map_iff in Hb as [[k v] [<- Hin]].
    apply FormattingFacts.In_firstn in Hin.
    apply (proj1 (BadgeFacts.In_sortByScore _ _)) in Hin.
    cbn [snd]. apply Math_round_percentage, (H _ Hin).
Qed.

Lemma percentages_in_range_witness :
  Forall (fun e : string * Q => 0 <= snd e <= 1) [("sad", 7 # 10); ("fear", 3 # 10)]
  /\ Forall (fun d => (0 <= percentage d <= 100)%Z)
       (formatEmotionData [("sad", 7 # 10); ("fear", 3 # 10)]).
Proof.
  assert (H : Forall (fun e : string * Q => 0 <= snd e <= 1)
                [("sad", 7 # 10); ("fear", 3 # 10)])
    by (repeat constructor; cbn; discriminate).
  split; [exact H | exact (proj1 (percentages_in_range _ H))].
Defined.

End AnalysisFacts.

(** ** Rounding to a double *)

Module Binary64Facts.

Import Binary64.

Lemma pow2_pos (e : Z) : 0 < pow2 e.
Proof. unfold pow2. now apply Qpower_0_lt. Qed.

Lemma pow2_plus (a b : Z) : pow2 (a + b) == pow2 a * pow2 b.
Proof. unfold pow2. apply Qpower_plus. discriminate. Qed.

Lemma pow2_le (a b : Z) : (a <= b)%Z -> pow2 a <= pow2 b.
Proof. intros H. unfold pow2. apply Qpower_le_compat_l; [exact H | discriminate]. Qed.

Lemma pow2_inject (n : Z) : (0 <= n)%Z -> pow2 n == inject_Z (2 ^ n).
Proof. intros H. unfold pow2. now rewrite Zpower_Qpower. Qed.

(** A positive integer lies between two consecutive powers of two. *)
Lemma log2_bounds (n : Z) :
  (0 < n)%Z -> pow2 (Z.log2 n) <= inject_Z n /\ inject_Z n < pow2 (Z.log2 n + 1).
Proof.
  intros H. destruct (Z.log2_spec n H) as [L U].
  pose proof (Z.log2_nonneg n).
  rewrite !pow2_inject by lia. rewrite <- Zle_Qle, <- Zlt_Qlt.
  replace (Z.log2 n + 1)%Z with (Z.succ (Z.log2 n)) by lia. split; assumption.
Qed.

Lemma Q_as_quotient (a : Q) : a == inject_Z (Qnum a) / inject_Z (Z.pos (Qden a)).
Proof.
  destruct a as [n d]. unfold Qeq, Qdiv, Qmult, Qinv, inject_Z. simpl. lia.
Qed.

Lemma floor_log2_spec (a : Q) :
  0 < a -> pow2 (floor_log2 a) <= a /\ a < pow2 (floor_log2 a + 1).
Proof.
  intros Ha. unfold floor_log2.
  set (n := Qnum a). set (d := Z.pos (Qden a)).
  assert (Hn : (0 < n)%Z) by (destruct a as [[|p|p] q]; cbn in *; try lia; discriminate Ha).
  assert (Hd : (0 < d)%Z) by (subst d; lia).
  destruct (log2_bounds n Hn) as [Ln Un]. destruct (log2_bounds d Hd) as [Ld Ud].
  assert (E : a == inject_Z n / inject_Z d) by apply Q_as_quotient.
  assert (Dpos : 0 < inject_Z d) by (change 0 with (inject_Z 0); now rewrite <- Zlt_Qlt).
  assert (A : a * inject_Z d == inject_Z n).
  { rewrite E. field. intros C. rewrite C in Dpos. discriminate Dpos. }
  set (k := (Z.log2 n - Z.log2 d)%Z).
  pose proof (pow2_pos k) as Pk. pose proof (pow2_pos (Z.log2 d)) as Pd.
  assert (K1 : pow2 (k + 1) * pow2 (Z.log2 d) == pow2 (Z.log2 n + 1)).
  { rewrite <- pow2_plus. subst k. now replace (Z.log2 n - Z.log2 d + 1 + Z.log2 d)%Z
      with (Z.log2 n + 1)%Z by lia. }
  assert (K0 : pow2 (k - 1) * pow2 (Z.log2 d + 1) == pow2 (Z.log2 n)).
  { rewrite <- pow2_plus. subst k. now replace (Z.log2 n - Z.log2 d - 1 + (Z.log2 d + 1))%Z
      with (Z.log2 n)%Z by lia. }
  destruct (Qle_bool (pow2 k) a) eqn:C.
  - apply Qle_bool_iff in C. split; [exact C|].
    apply Qnot_le_lt. intros G.
    assert (pow2 (k + 1) * pow2 (Z.log2 d) <= a * inject_Z d).
    { apply Qle_trans with (pow2 (k + 1) * inject_Z d).
      - rewrite !(Qmult_comm (pow2 (k + 1))). apply Qmult_le_compat_r; [exact Ld|].
        apply Qlt_le_weak, pow2_pos.
      - apply Qmult_le_compat_r; [exact G | now apply Qlt_le_weak]. }
    rewrite K1, A in H. apply Qle_not_lt in H. contradiction.
  - assert (C' : a < pow2 k).
    { apply Qnot_le_lt. intros G. apply Qle_bool_iff in G. congruence. }
    replace (k - 1 + 1)%Z with k by lia. split; [|exact C'].
    apply Qnot_lt_le. intros G.
    assert (a * inject_Z d < pow2 (k - 1) * pow2 (Z.log2 d + 1)).
    { apply Qlt_le_trans with (pow2 (k - 1) * inject_Z d).
      - apply Qmult_lt_compat_r; assumption.
      - rewrite !(Qmult_comm (pow2 (k - 1))). apply Qmult_le_compat_r.
        + now apply Qlt_le_weak.
        + apply Qlt_le_weak, pow2_pos. }
    rewrite K0, A in H. apply Qlt_not_le in H. contradiction.
Qed.

Lemma nearest_even_close (q : Q) :
  Qabs (inject_Z (nearest_even q) - q) <= 1 # 2.
Proof.
  unfold nearest_even.
  pose proof (Qfloor_le q) as L. pose proof (Qlt_floor q) as U.
  rewrite inject_Z_plus in U. change (inject_Z 1) with 1 in U.
  apply Qabs_Qle_condition.
  destruct (Qcompare (q - inject_Z (Qfloor q)) (1 # 2)) eqn:C.
  - apply Qeq_alt in C.
    destruct (Z.even (Qfloor q)); [| rewrite inject_Z_plus; change (inject_Z 1) with 1];
      split; lra.
  - apply Qlt_alt in C. split; lra.
  - apply Qgt_alt in C. rewrite inject_Z_plus. change (inject_Z 1) with 1. split; lra.
Qed.

Lemma nearest_even_bound (q : Q) (b : Z) :
  0 <= q -> q <= inject_Z b -> (0 <= nearest_even q <= b)%Z.
Proof.
  intros Hq Hb. unfold nearest_even.
  pose proof (Qfloor_le q) as L. pose proof (Qlt_floor q) as U.
  rewrite inject_Z_plus in U. change (inject_Z 1) with 1 in U.
  assert (F0 : (0 <= Qfloor q)%Z).
  { change 0%Z with (Qfloor 0). now apply Qfloor_resp_le. }
  assert (Fb : (Qfloor q <= b)%Z).
  { rewrite <- (Qfloor_Z b). now apply Qfloor_resp_le. }
  destruct (Z.eq_dec (Qfloor q) b) as [E|E].
  - assert (Q : q - inject_Z (Qfloor q) == 0) by (rewrite E in *; lra).
    rewrite Q. cbn. lia.
  - destruct (Qcompare (q - inject_Z (Qfloor q)) (1 # 2)); [destruct (Z.even (Qfloor q))| |]; lia.
Qed.

Lemma round_nonzero (x : Q) :
  ~ x == 0 ->
  round x
  = let a := Qabs x in
    let e := Z.max (floor_log2 a - 52) (-1074) in
    let y := Qred (inject_Z (nearest_even (a / pow2 e)) * pow2 e) in
    if Qle_bool 0 x then y else - y.
Proof.
  intros H. unfold round. destruct (Qeq_bool x 0) eqn:E; [|reflexivity].
  apply Qeq_bool_iff in E. contradiction.
Qed.

(** [round x] is a double, a signed integer of at most 53 bits times a
    power of two [2 ^ e] not below [2 ^ -1074], and it is within half a unit
    [2 ^ e] of [x], so that no multiple of the unit is nearer.  The unit is
    the one of the binade of [x], [2 ^ (e + 52) <= |x|], or the least one,
    [2 ^ -1074]. *)
Theorem round_is_double (x : Q) :
  exists m e : Z,
    round x == inject_Z m * pow2 e
    /\ (Z.abs m <= 2 ^ 53)%Z
    /\ (-1074 <= e)%Z
    /\ Qabs (round x - x) <= pow2 e * (1 # 2)
    /\ (pow2 (e + 52) <= Qabs x \/ e = (-1074)%Z).
Proof.
  destruct (Qeq_dec x 0) as [Z | NZ].
  - exists 0%Z, (-1074)%Z.
    assert (R : round x = 0).
    { unfold round. now rewrite (proj2 (Qeq_bool_iff x 0) Z). }
    rewrite R. split; [ring|]. split; [lia|]. split; [lia|]. split; [|now right].
    rewrite Z. setoid_replace (0 - 0) with 0 by ring. cbn.
    apply Qlt_le_weak. pose proof (pow2_pos (-1074)). lra.
  - rewrite (round_nonzero x NZ). cbv zeta.
    set (a := Qabs x).
    assert (Ha : 0 < a).
    { subst a. destruct (Qlt_le_dec 0 (Qabs x)) as [G|G]; [exact G|].
      exfalso. apply NZ. pose proof (Qabs_nonneg x).
      assert (E : Qabs x == 0) by lra.
      apply Qabs_Qle_condition with (y := 0) in G as G'. lra. }
    destruct (floor_log2_spec a Ha) as [Lk Uk].
    set (k := floor_log2 a) in *.
    set (e := Z.max (k - 52) (-1074)).
    pose proof (pow2_pos e) as Pe.
    set (q := a / pow2 e).
    assert (Q : q * pow2 e == a) by (subst q; field; lra).
    assert (Hq : 0 <= q).
    { subst q. apply Qlt_le_weak. apply Qlt_shift_div_l; [exact Pe | lra]. }
    assert (Hb : q <= inject_Z (2 ^ 53)).
    { rewrite <- pow2_inject by lia. subst q. apply Qle_shift_div_r; [exact Pe|].
      rewrite <- pow2_plus. apply Qlt_le_weak.
      apply Qlt_le_trans with (pow2 (k + 1)); [exact Uk|]. apply pow2_le. lia. }
    destruct (nearest_even_bound q (2 ^ 53) Hq Hb) as [M0 M1].
    pose proof (nearest_even_close q) as C.
    set (m := nearest_even q) in *.
    assert (Err : Qabs (inject_Z m * pow2 e - a) <= pow2 e * (1 # 2)).
    { setoid_replace (inject_Z m * pow2 e - a) with ((inject_Z m - q) * pow2 e)
        by (rewrite <- Q; ring).
      rewrite Qabs_Qmult, (Qabs_pos (pow2 e)) by lra.
      rewrite (Qmult_comm (pow2 e)). apply Qmult_le_compat_r; [exact C | lra]. }
    assert (Exp : pow2 (e + 52) <= a \/ e = (-1074)%Z).
    { destruct (Z.le_ge_cases (-1074) (k - 52)) as [G|G].
      - left. replace (e + 52)%Z with k by lia. exact Lk.
      - right. lia. }
    destruct (Qle_bool 0 x) eqn:S.
    + apply Qle_bool_iff in S.
      assert (X : x == a) by (subst a; now rewrite Qabs_pos).
      exists m, e. rewrite Qred_correct.
      split; [reflexivity|]. split; [lia|]. split; [lia|]. split; [|exact Exp].
      now rewrite X.
    + assert (S' : x < 0).
      { apply Qnot_le_lt. intros G. apply Qle_bool_iff in G. congruence. }
      assert (X : x == - a) by (subst a; rewrite Qabs_neg; [ring | lra]).
      exists (- m)%Z, e. rewrite Qred_correct.
      split; [rewrite inject_Z_opp; ring|]. split; [lia|]. split; [lia|].
      split; [|exact Exp].
      setoid_replace (- (inject_Z m * pow2 e) - x) with (- (inject_Z m * pow2 e - a))
        by (rewrite X; ring).
      now rewrite Qabs_opp.
Qed.

End Binary64Facts.

(** ** The formatters on doubles *)

Module DoublesFacts.

Import JsObject EmotionUtils EmotionVisualizer EmotionIcons.

(** The double that [0.1] denotes, and the one that [0.045] denotes. *)
Lemma round_examples :
  Binary64.round (1 # 10) = 3602879701896397 # 36028797018963968
  /\ Binary64.round (45 # 1000) = 3242591731706757 # 72057594037927936
  /\ Binary64.round 100 = 100
  /\ Binary64.round (1 # 2) = 1 # 2.
Proof. repeat split; vm_compute; reflexivity. Qed.

(** Where the rounding of the product shows.  [0.045 * 100] is the double
    [4.5], shown as 5, although the double [0.045] is below [45 / 1000];
    [46 / 80 * 100] is a double below [57.5], shown as 57. *)
Lemma percent_examples :
  Doubles.percent (45 # 1000) = 5%Z
  /\ Math_round (Binary64.round (45 # 1000) * 100) = 4%Z
  /\ Math_round (Binary64.mul (Binary64.div 46 80) 100) = 57%Z
  /\ Math_round ((46 # 80) * 100) = 58%Z
  /\ Doubles.percent (1 # 8) = 13%Z
  /\ Doubles.percent (9 # 10) = 90%Z.
Proof. repeat split; vm_compute; reflexivity. Qed.

Lemma formatEmotionData_labels (emotions : Emotions) :
  map emotion (Doubles.formatEmotionData emotions) = map fst emotions
  /\ map percentage (Doubles.formatEmotionData emotions)
     = map (fun e => Math_round (Binary64.mul (snd e) 100)) emotions.
Proof.
  unfold Doubles.formatEmotionData. rewrite !map_map.
  split; apply map_ext; now intros [k v].
Qed.

Lemma formatEmotionData_neutral_color (emotions : Emotions) (e : EmotionData) :
  In e (Doubles.formatEmotionData emotions) ->
  own emotionColors (toLowerCase (emotion e)) = None ->
  inherited (toLowerCase (emotion e)) = false ->
  color e = Val "#4F46E5".
Proof.
  unfold Doubles.formatEmotionData. intros H Hown Hinh.
  apply in_map_iff in H as [[k v] [<- _]]. cbn [emotion color] in *.
  unfold has. now rewrite (FormattingFacts.get_undefined _ _ Hown Hinh).
Qed.

Section Visualizer.

Variable capitalize : string -> string.

Lemma formatEmotions_of_entries (e : string * Q) (l : Emotions) :
  Doubles.formatEmotions capitalize (Some (e :: l))
  = firstn 5 (sortDesc (map (Doubles.formatEntry capitalize) (e :: l)))
  /\ Doubles.formatEmotions capitalize (Some (e :: l)) <> [].
Proof.
  unfold Doubles.formatEmotions.
  destruct (sortDesc (map (Doubles.formatEntry capitalize) (e :: l))) as [|x s] eqn:E.
  - simpl in E. now apply FormattingFacts.insertDesc_not_nil in E.
  - simpl. split; [reflexivity | discriminate].
Qed.

Lemma formatEmotions_shown (emotions : Emotions) (e : EmotionData) :
  emotions <> [] ->
  In e (Doubles.formatEmotions capitalize (Some emotions)) ->
  exists label score,
    In (label, score) emotions /\ e = Doubles.formatEntry capitalize (label, score).
Proof.
  destruct emotions as [|x l]; [congruence|]. intros _ Hin.
  assert (Hin' : In e (firstn 5 (sortDesc (map (Doubles.formatEntry capitalize) (x :: l)))))
    by (rewrite <- (proj1 (formatEmotions_of_entries x l)); exact Hin).
  apply FormattingFacts.In_firstn, FormattingFacts.In_sortDesc, in_map_iff in Hin'
    as [[label score] [<- Hin']].
  now exists label, score.
Qed.

Lemma formatEmotions_top (before : Emotions) (label : string) (score : Q)
  (after : Emotions) :
  Forall (fun e => (Doubles.percent (snd e) < Doubles.percent score)%Z) before ->
  Forall (fun e => (Doubles.percent (snd e) <= Doubles.percent score)%Z) after ->
  exists rest,
    Doubles.formatEmotions capitalize (Some (before ++ (label, score) :: after))
    = Doubles.formatEntry capitalize (label, score) :: rest.
Proof.
  intros Hb Ha.
  destruct (DisplayFacts.sortDesc_first_maximum
              (map (Doubles.formatEntry capitalize) before)
              (Doubles.formatEntry capitalize (label, score))
              (map (Doubles.formatEntry capitalize) after)) as [rest E].
  - apply Forall_map. eapply Forall_impl; [|exact Hb]. now intros [k v].
  - apply Forall_map. eapply Forall_impl; [|exact Ha]. now intros [k v].
  - exists (firstn 4 rest). unfold Doubles.formatEmotions.
    destruct (before ++ (label, score) :: after) as [|e l] eqn:L;
      [now destruct before|].
    rewrite <- L, map_app. cbn [map]. now rewrite E.
Qed.

End Visualizer.

(** C9, as the code has it.  Both formatters are total functions of the
    label mapping.  [formatEmotionData] keeps the labels and their order and
    shows [Math.round(score * 100)] for each, the product being the double
    JavaScript computes; on the empty mapping it gives the empty list.
    [formatEmotions] gives the fixed, non-empty default list when the
    mapping is absent or empty, and otherwise the five largest entries, each
    with a capitalized label and [Math.round(score * 100)].  In both, a
    label outside the known color set, that is, a label whose lower-case
    form the property read does not resolve (no key of the color table, no
    member of [Object.prototype]), gets the neutral color '#4F46E5'. *)
Theorem formatters_total (capitalize : string -> string) :
  (forall emotions : Emotions,
      map emotion (Doubles.formatEmotionData emotions) = map fst emotions
      /\ map percentage (Doubles.formatEmotionData emotions)
         = map (fun e => Math_round (Binary64.mul (snd e) 100)) emotions)
  /\ (forall (emotions : Emotions) (e : EmotionData),
         In e (Doubles.formatEmotionData emotions) ->
         own emotionColors (toLowerCase (emotion e)) = None ->
         inherited (toLowerCase (emotion e)) = false ->
         color e = Val "#4F46E5")
  /\ Doubles.formatEmotionData [] = []
  /\ Doubles.formatEmotions capitalize None = defaultEmotions
  /\ Doubles.formatEmotions capitalize (Some []) = defaultEmotions
  /\ defaultEmotions <> []
  /\ (forall emotions : Emotions,
         emotions <> [] ->
         Doubles.formatEmotions capitalize (Some emotions)
         = firstn 5 (sortDesc (map (Doubles.formatEntry capitalize) emotions))
         /\ Doubles.formatEmotions capitalize (Some emotions) <> [])
  /\ (forall (emotions : Emotions) (e : EmotionData),
         emotions <> [] ->
         In e (Doubles.formatEmotions capitalize (Some emotions)) ->
         exists label score,
           In (label, score) emotions
           /\ emotion e = capitalize label
           /\ percentage e = Math_round (Binary64.mul score 100)
           /\ (own EMOTION_COLORS (toLowerCase label) = None ->
               inherited (toLowerCase label) = false ->
               color e = Val "#4F46E5")).
Proof.
  split; [| split; [| split; [| split; [| split; [| split; [| split]]]]]].
  - apply formatEmotionData_labels.
  - apply formatEmotionData_neutral_color.
  - reflexivity.
  - reflexivity.
  - reflexivity.
  - discriminate.
  - intros [|x l] Hne; [congruence|]. apply formatEmotions_of_entries.
  - intros emotions e Hne Hin.
    destruct (formatEmotions_shown capitalize emotions e Hne Hin)
      as (label & score & Hin' & ->).
    exists label, score. repeat split; try assumption.
    cbn [Doubles.formatEntry color]. apply FormattingFacts.displayColor_default.
Qed.

Lemma formatters_total_witness :
  In {| emotion := "ennui"; percentage := 70; color := Val "#4F46E5" |}
     (Doubles.formatEmotionData [("ennui", 7 # 10); ("sad", 3 # 10)])
  /\ own emotionColors (toLowerCase "ennui") = None
  /\ inherited (toLowerCase "ennui") = false
  /\ color {| emotion := "ennui"; percentage := 70; color := Val "#4F46E5" |}
     = Val "#4F46E5"
  /\ Doubles.formatEmotions capitalize (Some [("ennui", 7 # 10); ("sad", 3 # 10)])
     = [ {| emotion := "Ennui"; percentage := 70; color := Val "#4F46E5" |};
         {| emotion := "Sad"; percentage := 30; color := Val "#6B7280" |} ].
Proof.
  assert (H : In {| emotion := "ennui"; percentage := 70; color := Val "#4F46E5" |}
                (Doubles.formatEmotionData [("ennui", 7 # 10); ("sad", 3 # 10)]))
    by (left; vm_compute; reflexivity).
  split; [exact H|]. split; [reflexivity|]. split; [reflexivity|].
  split; [|vm_compute; reflexivity].
  exact (proj1 (proj2 (formatters_total capitalize)) _ _ H eq_refl eq_refl).
Defined.

(** C9, as stated, fails. On the empty mapping [formatEmotionData] gives the
    empty list, not the default display list. *)
Lemma formatEmotionData_no_default_list :
  Doubles.formatEmotionData [] = []
  /\ Doubles.formatEmotionData [] <> defaultEmotions.
Proof. split; [reflexivity | discriminate]. Qed.

(** C6. The displayed percentages are not renormalized to a total of 100.
    The normalizer of the mock visualizer, whose comment reads "Normalize to
    ensure total is 100%", rounds each share on its own: for the draws 46,
    5, 5, 1 and 1, all within their ranges, it shows 79, 9, 9, 2 and 2, a
    total of 101.  [formatEmotionData] rounds each score on its own as
    well: the distribution 1/2, 1/4, 1/8, 1/8, whose scores sum to exactly
    1, is shown as 50, 25, 13 and 13, a total of 101. *)
Theorem percentages_total_101 :
  MockVisualizer.draw_ok 46 5 5 1 1
  /\ map percentage (Doubles.normalizedEmotions (MockVisualizer.mockEmotion 46 5 5 1 1))
     = [79; 9; 9; 2; 2]%Z
  /\ MockVisualizer.total (Doubles.normalizedEmotions (MockVisualizer.mockEmotion 46 5 5 1 1))
     = 101%Z
  /\ fold_right Qplus 0
       (map snd [("happy", 1 # 2); ("sad", 1 # 4); ("fear", 1 # 8); ("angry", 1 # 8)]) == 1
  /\ map percentage
       (Doubles.formatEmotionData
          [("happy", 1 # 2); ("sad", 1 # 4); ("fear", 1 # 8); ("angry", 1 # 8)])
     = [50; 25; 13; 13]%Z
  /\ MockVisualizer.total
       (Doubles.formatEmotionData
          [("happy", 1 # 2); ("sad", 1 # 4); ("fear", 1 # 8); ("angry", 1 # 8)])
     = 101%Z.
Proof.
  split; [unfold MockVisualizer.draw_ok; lia|].
  repeat split; vm_compute; reflexivity.
Qed.

(** X3. The entry at the top of the display, the one the component reads
    the dominant emotion from, is the first entry of the mapping, in
    iteration order, whose percentage [Math.round(score * 100)] is the
    largest; the dominant emotion is its capitalized label, or 'Neutral' if
    that is empty. *)
Theorem top_entry_first_largest_percentage
  (capitalize : string -> string) (entries : Emotions) :
  entries <> [] ->
  exists before label score after,
    entries = before ++ (label, score) :: after
    /\ Forall (fun e => (Doubles.percent (snd e) < Doubles.percent score)%Z) before
    /\ Forall (fun e => (Doubles.percent (snd e) <= Doubles.percent score)%Z) after
    /\ hd_error (Doubles.formatEmotions capitalize (Some entries))
       = Some (Doubles.formatEntry capitalize (label, score))
    /\ dominantEmotion (Doubles.formatEmotions capitalize (Some entries))
       = if truthy (capitalize label) then capitalize label else "Neutral".
Proof.
  intros N.
  destruct (DisplayFacts.first_maximum_exists
              (fun e : string * Q => Doubles.percent (snd e)) entries N)
    as (before & [label score] & after & E & Hb & Ha).
  exists before, label, score, after. cbn [snd] in *.
  destruct (formatEmotions_top capitalize before label score after Hb Ha) as [rest F].
  unfold Emotions in *. rewrite E, F. repeat split; try assumption.
Qed.

(** The scores 0.045 and 0.0451 are both shown as 5, so the first of them
    leads. *)
Lemma top_entry_first_largest_percentage_witness :
  [("happy", 45 # 1000); ("sad", 451 # 10000)] <> []
  /\ map percentage
       (Doubles.formatEmotions capitalize (Some [("happy", 45 # 1000); ("sad", 451 # 10000)]))
     = [5; 5]%Z
  /\ dominantEmotion
       (Doubles.formatEmotions capitalize (Some [("happy", 45 # 1000); ("sad", 451 # 10000)]))
     = "Happy"
  /\ exists before label score after,
       [("happy", 45 # 1000); ("sad", 451 # 10000)] = before ++ (label, score) :: after
       /\ Forall (fun e => (Doubles.percent (snd e) < Doubles.percent score)%Z) before
       /\ Forall (fun e => (Doubles.percent (snd e) <= Doubles.percent score)%Z) after
       /\ hd_error
            (Doubles.formatEmotions capitalize
               (Some [("happy", 45 # 1000); ("sad", 451 # 10000)]))
          = Some (Doubles.formatEntry capitalize (label, score))
       /\ dominantEmotion
            (Doubles.formatEmotions capitalize
               (Some [("happy", 45 # 1000); ("sad", 451 # 10000)]))
          = if truthy (capitalize label) then capitalize label else "Neutral".
Proof.
  assert (N : [("happy", 45 # 1000); ("sad", 451 # 10000)] <> []) by discriminate.
  split; [exact N|]. split; [vm_compute; reflexivity|].
  split; [vm_compute; reflexivity|].
  exact (top_entry_first_largest_percentage capitalize _ N).
Defined.



End DoublesFacts.
